(** * code-converter: rule-based engine, Gemini wrapper and HTTP routes

    A shallow embedding of the JavaScript sources of the code-converter
    server:

    - [src/unnamed/part_000] (the [GeminiService] class, imported by the
      routes as [../lib/geminiService.js]);
    - [src/server/routes/convert.js] ([saveHistory] and the handlers of
      the router).

    The rule-based engine itself ([../lib/codeTransformer.js] and
    [../lib/codeAnalyzer.js]) and the Supabase client module
    ([../supabase.js]) are imported by the routes but are not part of the
    sources at hand.  Module [Engine] models the engine from its design
    document; the routes take both as parameters. *)

From Stdlib Require Import String Ascii List Bool Arith ZArith Lia.
From Stdlib Require Import DecimalString.
Import ListNotations.
Open Scope list_scope.
Open Scope string_scope.

(* ===================================================================== *)
(** ** JavaScript preliminaries *)
(* ===================================================================== *)

Module Js.

(** The line feed and the double quote, which a string literal cannot
    spell directly. *)
Definition LF : ascii := "010"%char.
Definition DQ : ascii := "034"%char.
Definition nl : string := String LF "".

(** A thrown value.  Everything thrown in the modelled sources is an
    [Error] object (or a Supabase error object) read through its
    [message] property only. *)
Record JsError : Type := mkError { message : string }.

(** The completion of a call: it returns a value or throws.  For an
    [async] function, returning is the promise fulfilling and throwing is
    the promise rejecting, as an [await] observes them. *)
Inductive Outcome (A : Type) : Type :=
| Returned (a : A)
| Threw (e : JsError).
Arguments Returned {A} a.
Arguments Threw {A} e.

Definition bind {A B : Type} (m : Outcome A) (k : A -> Outcome B) : Outcome B :=
  match m with
  | Returned a => k a
  | Threw e => Threw e
  end.

(** [try { body } catch (error) { handler(error) }] *)
Definition tryCatch {A : Type} (body : Outcome A) (handler : JsError -> Outcome A)
  : Outcome A :=
  match body with
  | Returned a => Returned a
  | Threw e => handler e
  end.

Definition throws {A : Type} (m : Outcome A) : bool :=
  match m with
  | Returned _ => false
  | Threw _ => true
  end.

(** The values a parsed JSON request body can hold in one field.  Numbers
    are integers here; objects and arrays are opaque.  [JOther] is one
    that converts to a string and carries that string.  [JUnprintable] is
    one that does not: ToString throws a [TypeError] on it, as on the
    parsed JSON [{"toString": 1}], whose own [toString] is not callable
    and whose [valueOf] returns the object itself. *)
Inductive JsVal : Type :=
| JUndefined
| JNull
| JBool (b : bool)
| JNum (n : Z)
| JStr (s : string)
| JOther (repr : string)
| JUnprintable.

(** ToBoolean *)
Definition truthy (v : JsVal) : bool :=
  match v with
  | JUndefined | JNull => false
  | JBool b => b
  | JNum n => negb (Z.eqb n 0)
  | JStr s => negb (String.eqb s "")
  | JOther _ | JUnprintable => true
  end.

(** Whether ToString yields a string on the value. *)
Definition printable (v : JsVal) : bool :=
  match v with
  | JUnprintable => false
  | _ => true
  end.

(** The string that ToString yields on a value on which it yields one;
    it is read through [interpolate] only, which raises on the other
    values. *)
Definition toStr (v : JsVal) : string :=
  match v with
  | JUndefined => "undefined"
  | JNull => "null"
  | JBool true => "true"
  | JBool false => "false"
  | JNum n => NilZero.string_of_int (Z.to_int n)
  | JStr s => s
  | JOther repr => repr
  | JUnprintable => ""
  end.

(** The [TypeError] of a failed ToString. *)
Definition typeError : JsError := mkError "Cannot convert object to primitive value".

(** A substitution [${v}] of a template literal: ToString, which throws
    on a value that has no string conversion. *)
Definition interpolate (v : JsVal) : Outcome string :=
  if printable v then Returned (toStr v) else Threw typeError.

(** [vs.map(f)] where [f] may throw: the first throw ends the map. *)
Fixpoint mapM {A B : Type} (f : A -> Outcome B) (l : list A) : Outcome (list B) :=
  match l with
  | [] => Returned []
  | x :: rest =>
      bind (f x) (fun y => bind (mapM f rest) (fun ys => Returned (y :: ys)))
  end.

Definition natStr (n : nat) : string := NilZero.string_of_uint (Nat.to_uint n).

End Js.

Module JsNotations.
  Notation "x <- m ;; k" := (Js.bind m (fun x => k))
    (at level 61, m at next level, right associativity).
  (** Array spread and concatenation, next to [++] on strings. *)
  Notation "l +++ m" := (List.app l m) (at level 60, right associativity).
End JsNotations.

(* ===================================================================== *)
(** ** GeminiService ([src/unnamed/part_000]) *)
(* ===================================================================== *)

Module Gemini.
Import Js JsNotations.

(** [\w] of a JavaScript regular expression without the [u] flag. *)
Definition isWordChar (c : ascii) : bool :=
  let n := nat_of_ascii c in
  (((48 <=? n) && (n <=? 57)) || ((65 <=? n) && (n <=? 90))
   || ((97 <=? n) && (n <=? 122)) || (n =? 95))%nat.

Definition BT : ascii := "096"%char.

(** Drops the longest prefix of word characters: the greedy [[\w]*]. *)
Fixpoint dropWord (s : string) : string :=
  match s with
  | String c rest => if isWordChar c then dropWord rest else s
  | EmptyString => s
  end.

(** Drops one line feed if there is one: [\n?]. *)
Definition dropLF (s : string) : string :=
  match s with
  | String c rest => if Ascii.eqb c LF then rest else s
  | EmptyString => s
  end.

(** [s.replace(/```[\w]*\n?/g, '')] when [tail] is
    [fun r => dropLF (dropWord r)], and [s.replace(/```/g, '')] when
    [tail] is the identity: scan from the left, and at every position
    where three backticks start, delete the match and resume after it.
    [fuel] bounds the number of resumptions by the length of the input;
    what follows a match is a suffix of the text, so the bound is never
    reached. *)
Fixpoint replaceFence (tail : string -> string) (fuel : nat) (s : string) : string :=
  match fuel with
  | O => s
  | S fuel' =>
      match s with
      | String a (String b (String c rest)) =>
          if Ascii.eqb a BT && Ascii.eqb b BT && Ascii.eqb c BT
          then replaceFence tail fuel' (tail rest)
          else String a (replaceFence tail fuel' (String b (String c rest)))
      | _ => s
      end
  end.

Section Service.

(** [String.prototype.trim] of the JavaScript runtime. *)
Variable trim : string -> string.

(** The remote model behind [@google/generative-ai]: for an API key, a
    model name and a prompt, what
    [(await (await model.generateContent(prompt)).response).text()]
    produces, or the error that one of the three steps throws. *)
Variable remote : string -> string -> string -> Outcome string.

Record GoogleGenerativeAI : Type := mkGenAI { apiKey : string }.
Record GenerativeModel : Type := mkModel { owner : GoogleGenerativeAI; modelName : string }.

(** The two fields of the class; [None] is JavaScript's [null]. *)
Record GeminiService : Type := mkService {
  genAI : option GoogleGenerativeAI;
  model : option GenerativeModel
}.

(** [initializeClient], run by the constructor on
    [{genAI: null, model: null}].  [env] is [process.env.GEMINI_API_KEY]:
    [None] when unset.  [if (apiKey)] is false for the unset and for the
    empty key. *)
Definition initializeClient (env : option string) (this : GeminiService)
  : GeminiService :=
  match env with
  | Some key =>
      if truthy (JStr key)
      then let g := mkGenAI key in
           mkService (Some g) (Some (mkModel g "gemini-1.5-flash"))
      else this
  | None => this
  end.

Definition newGeminiService (env : option string) : GeminiService :=
  initializeClient env (mkService None None).

Definition generateContent (m : GenerativeModel) (prompt : string) : Outcome string :=
  remote (apiKey (owner m)) (modelName m) prompt.

(** [isConfigured] *)
Definition isConfigured (this : GeminiService) : bool :=
  match genAI this, model this with
  | Some _, Some _ => true
  | _, _ => false
  end.

(** The guard that opens every AI method:
    [if (!this.genAI || !this.model) throw new Error(...)].
    It hands the model to the rest of the method. *)
Definition requireClient (this : GeminiService) : Outcome GenerativeModel :=
  match genAI this, model this with
  | Some _, Some m => Returned m
  | _, _ => Threw (mkError "Gemini API key not configured")
  end.

Definition fence : string := "```".
Definition ind : string := "    ".

(** [cleanCode]: strip the markdown fences, then trim again. *)
Definition cleanFences (text : string) : string :=
  let s1 := replaceFence (fun r => dropLF (dropWord r)) (S (String.length text)) text in
  trim (replaceFence (fun r => r) (S (String.length s1)) s1).

Record CodeResult : Type := mkCodeResult {
  code : string;
  success : bool;
  error : option string;
  analysis : list string
}.

Record TextResult : Type := mkTextResult {
  text : string;
  tsuccess : bool;
  terror : option string
}.

(** The methods are given here on arguments that are strings, which a
    template literal takes as they are; module [Methods] gives them on
    the values they are called with. *)
Definition convertPrompt (sourceCode sourceLang targetLang : string) : string :=
  "Convert the following " ++ sourceLang ++ " code to " ++ targetLang ++ ". " ++ nl
  ++ ind ++ "Provide only the converted code without explanations or markdown formatting." ++ nl
  ++ ind ++ "Maintain the same functionality and logic." ++ nl
  ++ ind ++ nl
  ++ ind ++ "Source code:" ++ nl
  ++ ind ++ fence ++ sourceLang ++ nl
  ++ ind ++ sourceCode ++ nl
  ++ ind ++ fence ++ nl
  ++ ind ++ nl
  ++ ind ++ "Converted " ++ targetLang ++ " code:".

Definition convertCodeWithAI (this : GeminiService)
    (sourceCode sourceLang targetLang : string) : Outcome CodeResult :=
  m <- requireClient this ;;
  let prompt := convertPrompt sourceCode sourceLang targetLang in
  tryCatch
    (response <- generateContent m prompt ;;
     let convertedCode := trim response in
     let cleanCode := cleanFences convertedCode in
     Returned (mkCodeResult cleanCode true None
       [ "✅ AI-powered conversion from " ++ sourceLang ++ " to " ++ targetLang;
         "✅ Code analyzed and transformed using Gemini 1.5 Flash";
         "✅ Functionality preserved during conversion" ]))
    (fun error =>
       Returned (mkCodeResult "" false (Some (message error))
         [ "❌ AI conversion failed: " ++ message error ])).

Definition fixPrompt (code language : string) : string :=
  "Analyze and fix the following " ++ language ++ " code. " ++ nl
  ++ ind ++ "Identify syntax errors, logical issues, and best practices violations." ++ nl
  ++ ind ++ "Provide the corrected code without explanations or markdown formatting." ++ nl
  ++ ind ++ nl
  ++ ind ++ "Code to fix:" ++ nl
  ++ ind ++ fence ++ language ++ nl
  ++ ind ++ code ++ nl
  ++ ind ++ fence ++ nl
  ++ ind ++ nl
  ++ ind ++ "Fixed code:".

Definition fixCodeWithAI (this : GeminiService) (code language : string)
  : Outcome CodeResult :=
  m <- requireClient this ;;
  let prompt := fixPrompt code language in
  tryCatch
    (response <- generateContent m prompt ;;
     let fixedCode := trim response in
     let cleanCode := cleanFences fixedCode in
     Returned (mkCodeResult cleanCode true None
       [ "✅ AI-powered code analysis and fixing";
         "✅ Syntax errors identified and corrected";
         "✅ Code quality improved using Gemini 1.5 Flash";
         "✅ Best practices applied" ]))
    (fun error =>
       Returned (mkCodeResult "" false (Some (message error))
         [ "❌ AI code fixing failed: " ++ message error ])).

Definition qualityPrompt (code language : string) : string :=
  "Analyze the following " ++ language
  ++ " code and provide a detailed quality assessment." ++ nl
  ++ ind ++ "Focus on:" ++ nl
  ++ ind ++ "1. Code structure and organization" ++ nl
  ++ ind ++ "2. Performance considerations" ++ nl
  ++ ind ++ "3. Security issues" ++ nl
  ++ ind ++ "4. Best practices adherence" ++ nl
  ++ ind ++ "5. Readability and maintainability" ++ nl
  ++ ind ++ nl
  ++ ind ++ "Code to analyze:" ++ nl
  ++ ind ++ fence ++ language ++ nl
  ++ ind ++ code ++ nl
  ++ ind ++ fence ++ nl
  ++ ind ++ nl
  ++ ind ++ "Provide a structured analysis with specific recommendations.".

(** The three methods that return one text ([analysis], [explanation],
    [suggestions]) share their body up to the prompt; [TextResult.text]
    stands for the field each of them names. *)
Definition textMethod (this : GeminiService) (prompt : string) : Outcome TextResult :=
  m <- requireClient this ;;
  tryCatch
    (response <- generateContent m prompt ;;
     Returned (mkTextResult (trim response) true None))
    (fun error => Returned (mkTextResult "" false (Some (message error)))).

Definition analyzeCodeQuality (this : GeminiService) (code language : string)
  : Outcome TextResult :=
  textMethod this (qualityPrompt code language).

Definition explainPrompt (code language : string) : string :=
  "Explain the following " ++ language ++ " code in detail:" ++ nl
  ++ ind ++ nl
  ++ ind ++ fence ++ language ++ nl
  ++ ind ++ code ++ nl
  ++ ind ++ fence ++ nl
  ++ ind ++ nl
  ++ ind ++ "Provide:" ++ nl
  ++ ind ++ "1. What the code does" ++ nl
  ++ ind ++ "2. How it works" ++ nl
  ++ ind ++ "3. Key concepts used" ++ nl
  ++ ind ++ "4. Potential improvements".

Definition generateCodeExplanation (this : GeminiService) (code language : string)
  : Outcome TextResult :=
  textMethod this (explainPrompt code language).

Definition suggestPrompt (code language : string) : string :=
  "Suggest improvements for the following " ++ language ++ " code:" ++ nl
  ++ ind ++ nl
  ++ ind ++ fence ++ language ++ nl
  ++ ind ++ code ++ nl
  ++ ind ++ fence ++ nl
  ++ ind ++ nl
  ++ ind ++ "Focus on:" ++ nl
  ++ ind ++ "1. Performance optimizations" ++ nl
  ++ ind ++ "2. Code readability" ++ nl
  ++ ind ++ "3. Best practices" ++ nl
  ++ ind ++ "4. Security improvements" ++ nl
  ++ ind ++ "5. Maintainability".

Definition suggestImprovements (this : GeminiService) (code language : string)
  : Outcome TextResult :=
  textMethod this (suggestPrompt code language).

(** The five AI methods behind one interface, to state what they share:
    a call names the method and its arguments, and its result is
    observed through [success] and [error]. *)
Inductive Call : Type :=
| ConvertCodeWithAI (sourceCode sourceLang targetLang : string)
| FixCodeWithAI (code language : string)
| AnalyzeCodeQuality (code language : string)
| GenerateCodeExplanation (code language : string)
| SuggestImprovements (code language : string).

Definition promptOf (c : Call) : string :=
  match c with
  | ConvertCodeWithAI sc sl tl => convertPrompt sc sl tl
  | FixCodeWithAI c l => fixPrompt c l
  | AnalyzeCodeQuality c l => qualityPrompt c l
  | GenerateCodeExplanation c l => explainPrompt c l
  | SuggestImprovements c l => suggestPrompt c l
  end.

(** What a caller reads off any of the results. *)
Record Status : Type := mkStatus { ok : bool; err : option string }.

Definition codeStatus (r : CodeResult) : Status := mkStatus (success r) (error r).
Definition textStatus (r : TextResult) : Status := mkStatus (tsuccess r) (terror r).

Definition mapOutcome {A B : Type} (f : A -> B) (m : Outcome A) : Outcome B :=
  match m with
  | Returned a => Returned (f a)
  | Threw e => Threw e
  end.

Definition invoke (this : GeminiService) (c : Call) : Outcome Status :=
  match c with
  | ConvertCodeWithAI sc sl tl => mapOutcome codeStatus (convertCodeWithAI this sc sl tl)
  | FixCodeWithAI c l => mapOutcome codeStatus (fixCodeWithAI this c l)
  | AnalyzeCodeQuality c l => mapOutcome textStatus (analyzeCodeQuality this c l)
  | GenerateCodeExplanation c l => mapOutcome textStatus (generateCodeExplanation this c l)
  | SuggestImprovements c l => mapOutcome textStatus (suggestImprovements this c l)
  end.

End Service.

End Gemini.

(* ===================================================================== *)
(** ** The AI methods on the values they are called with *)
(* ===================================================================== *)

(** The definitions of [Gemini] take the arguments of a method as strings.
    The routes hand the methods the fields of the request body as they
    are.  Each method runs its guard, then builds its prompt with a
    template literal, which converts the arguments to strings in the
    order in which the template names them and throws where one has no
    conversion, and only then enters its [try].  The later template
    literals of [convertCodeWithAI] name values that the prompt has
    already converted. *)
Module Methods.
Import Js JsNotations.

Section Service.

Variable trim : string -> string.
Variable remote : string -> string -> string -> Outcome string.

Definition convertCodeWithAI (this : Gemini.GeminiService)
    (sourceCode sourceLang targetLang : JsVal) : Outcome Gemini.CodeResult :=
  _ <- Gemini.requireClient this ;;
  sl <- interpolate sourceLang ;;
  tl <- interpolate targetLang ;;
  sc <- interpolate sourceCode ;;
  Gemini.convertCodeWithAI trim remote this sc sl tl.

Definition fixCodeWithAI (this : Gemini.GeminiService) (code language : JsVal)
  : Outcome Gemini.CodeResult :=
  _ <- Gemini.requireClient this ;;
  l <- interpolate language ;;
  c <- interpolate code ;;
  Gemini.fixCodeWithAI trim remote this c l.

Definition analyzeCodeQuality (this : Gemini.GeminiService) (code language : JsVal)
  : Outcome Gemini.TextResult :=
  _ <- Gemini.requireClient this ;;
  l <- interpolate language ;;
  c <- interpolate code ;;
  Gemini.analyzeCodeQuality trim remote this c l.

Definition generateCodeExplanation (this : Gemini.GeminiService) (code language : JsVal)
  : Outcome Gemini.TextResult :=
  _ <- Gemini.requireClient this ;;
  l <- interpolate language ;;
  c <- interpolate code ;;
  Gemini.generateCodeExplanation trim remote this c l.

Definition suggestImprovements (this : Gemini.GeminiService) (code language : JsVal)
  : Outcome Gemini.TextResult :=
  _ <- Gemini.requireClient this ;;
  l <- interpolate language ;;
  c <- interpolate code ;;
  Gemini.suggestImprovements trim remote this c l.

(** A call of one of the five methods: the method and the values it is
    passed. *)
Inductive Invocation : Type :=
| InvokeConvert (sourceCode sourceLang targetLang : JsVal)
| InvokeFix (code language : JsVal)
| InvokeAnalyze (code language : JsVal)
| InvokeExplain (code language : JsVal)
| InvokeSuggest (code language : JsVal).

(** The values that the prompt of the call interpolates. *)
Definition arguments (c : Invocation) : list JsVal :=
  match c with
  | InvokeConvert sc sl tl => [sl; tl; sc]
  | InvokeFix c l | InvokeAnalyze c l | InvokeExplain c l | InvokeSuggest c l => [l; c]
  end.

(** The call once its arguments are strings. *)
Definition asCall (c : Invocation) : Gemini.Call :=
  match c with
  | InvokeConvert sc sl tl => Gemini.ConvertCodeWithAI (toStr sc) (toStr sl) (toStr tl)
  | InvokeFix c l => Gemini.FixCodeWithAI (toStr c) (toStr l)
  | InvokeAnalyze c l => Gemini.AnalyzeCodeQuality (toStr c) (toStr l)
  | InvokeExplain c l => Gemini.GenerateCodeExplanation (toStr c) (toStr l)
  | InvokeSuggest c l => Gemini.SuggestImprovements (toStr c) (toStr l)
  end.

Definition invoke (this : Gemini.GeminiService) (c : Invocation)
  : Outcome Gemini.Status :=
  match c with
  | InvokeConvert sc sl tl =>
      Gemini.mapOutcome Gemini.codeStatus (convertCodeWithAI this sc sl tl)
  | InvokeFix c l => Gemini.mapOutcome Gemini.codeStatus (fixCodeWithAI this c l)
  | InvokeAnalyze c l => Gemini.mapOutcome Gemini.textStatus (analyzeCodeQuality this c l)
  | InvokeExplain c l =>
      Gemini.mapOutcome Gemini.textStatus (generateCodeExplanation this c l)
  | InvokeSuggest c l => Gemini.mapOutcome Gemini.textStatus (suggestImprovements this c l)
  end.

End Service.

End Methods.

(* ===================================================================== *)
(** ** The routes ([src/server/routes/convert.js]) *)
(* ===================================================================== *)

Module Routes.
Import Js JsNotations.

(** [req.body || {}], destructured: a field that is absent is
    [JUndefined]. *)
Record Body : Type := mkBody {
  sourceLang : JsVal;
  targetLang : JsVal;
  language : JsVal;
  inputCode : JsVal;
  useAI : JsVal
}.

(** What the handlers read off the object that a conversion or a fix
    produced: [success], [error], [outputCode], [code] and the iterable
    [analysis].  A field the object does not have is [JUndefined]. *)
Record EngineResult : Type := mkResult {
  success : bool;
  error : JsVal;
  outputCode : JsVal;
  code : JsVal;
  analysis : list string
}.

Record SyntaxAnalysis : Type := mkSyntax {
  errors : list JsVal;
  warnings : list JsVal;
  suggestions : list JsVal
}.

Record FixResult : Type := mkFix {
  fixedCode : JsVal;
  fixes : list JsVal
}.

Record QualityMetrics : Type := mkMetrics {
  linesOfCode : JsVal;
  functions : JsVal;
  classes : JsVal;
  complexity : JsVal;
  readability : JsVal
}.

(** The object handed to [saveHistory], and the row it inserts. *)
Record HistoryEntry : Type := mkEntry {
  h_sourceLang : JsVal;
  h_targetLang : JsVal;
  h_inputCode : JsVal;
  h_outputCode : JsVal;
  h_analysisSummary : list string;
  h_useAI : JsVal
}.

(** A row as [.select()] returns it; only [id] is read. *)
Record Row : Type := mkRow { id : JsVal }.

(** What [await supabase.from(TABLE).insert(row).select()] does: it
    resolves to [{ data, error }] or it rejects. *)
Inductive InsertOutcome : Type :=
| Resolved (data : option (list Row)) (error : option JsError)
| Rejected (e : JsError).

(** The module [../supabase.js]: [isSupabaseConfigured()] and the client.
    The client serialises the row it is given and does not change it. *)
Record Supabase : Type := mkSupabase {
  isSupabaseConfigured : bool;
  insert : string -> HistoryEntry -> InsertOutcome
}.

(** What [saveHistory] returns: [null], [undefined] (from [data?.[0]]) or
    the first row. *)
Inductive Saved : Type :=
| SavedNull
| SavedUndefined
| SavedRow (r : Row).

(** [saved?.id] *)
Definition savedId (s : Saved) : JsVal :=
  match s with
  | SavedRow r => id r
  | SavedNull | SavedUndefined => JUndefined
  end.

Record ResultBody : Type := mkResultBody {
  b_outputCode : JsVal;
  b_analysis : list string;
  b_id : JsVal;
  b_useAI : JsVal;
  b_qualityMetrics : QualityMetrics
}.

Inductive Payload : Type :=
| ErrorPayload (error : JsVal)
| ResultPayload (b : ResultBody).

(** [res.status(n).json(payload)]; [res.json] alone is status 200. *)
Record Response : Type := mkResponse { status : nat; payload : Payload }.

Section Handlers.

Variable trim : string -> string.
Variable remote : string -> string -> string -> Outcome string.

(** [process.env.GEMINI_API_KEY] and [process.env.SUPABASE_TABLE] at
    start-up. *)
Variable geminiEnv : option string.
Variable tableEnv : option string.

(** The rule-based engine, [new CodeTransformer()] and
    [new CodeAnalyzer()]: whatever the four methods do on the values the
    handlers pass them, a failure to read a field of their result
    included. *)
Variable convertCode : JsVal -> JsVal -> JsVal -> Outcome EngineResult.
Variable analyzeSyntax : JsVal -> JsVal -> Outcome SyntaxAnalysis.
Variable fixSyntaxErrors : JsVal -> JsVal -> Outcome FixResult.
Variable generateQualityMetrics : JsVal -> JsVal -> Outcome QualityMetrics.

Definition TABLE : string :=
  match tableEnv with
  | Some t => if truthy (JStr t) then t else "history"
  | None => "history"
  end.

Definition geminiService : Gemini.GeminiService := Gemini.newGeminiService geminiEnv.

(** [useAI || false] *)
Definition orFalse (v : JsVal) : JsVal := if truthy v then v else JBool false.

(** A destructuring default [x = d] applies to [undefined] only. *)
Definition withDefault (d v : JsVal) : JsVal :=
  match v with
  | JUndefined => d
  | _ => v
  end.

(** The row that [saveHistory] inserts: its parameter defaults
    ([targetLang = null], [useAI = false]) apply to [undefined], and the
    row holds [useAI || false]. *)
Definition rowOf (args : HistoryEntry) : HistoryEntry :=
  mkEntry (h_sourceLang args) (withDefault JNull (h_targetLang args))
          (h_inputCode args) (h_outputCode args) (h_analysisSummary args)
          (orFalse (withDefault (JBool false) (h_useAI args))).

Definition saveHistory (sb : Supabase) (args : HistoryEntry) : Outcome Saved :=
  if negb (isSupabaseConfigured sb) then Returned SavedNull
  else
    tryCatch
      (match insert sb TABLE (rowOf args) with
       | Rejected e => Threw e
       | Resolved data (Some err) => Threw err
       | Resolved data None =>
           match data with
           | Some (r :: _) => Returned (SavedRow r)
           | Some [] | None => Returned SavedUndefined
           end
       end)
      (fun e => Returned SavedNull).

(** The result of an AI call as the handlers see it: it has [code] and no
    [outputCode]. *)
Definition ofCodeResult (r : Gemini.CodeResult) : EngineResult :=
  mkResult (Gemini.success r)
           (match Gemini.error r with Some m => JStr m | None => JNull end)
           JUndefined
           (JStr (Gemini.code r))
           (Gemini.analysis r).

(** The four lines on the metrics.  Each is a template literal on a
    field of the metrics, which throws if the field has no string
    conversion. *)
Definition metricLines (q : QualityMetrics) : Outcome (list string) :=
  r <- interpolate (readability q) ;;
  l <- interpolate (linesOfCode q) ;;
  f <- interpolate (functions q) ;;
  c <- interpolate (classes q) ;;
  Returned [ "✅ Code quality: " ++ r;
             "✅ Lines of code: " ++ l;
             "✅ Functions: " ++ f;
             "✅ Classes: " ++ c ].

Definition warn (w : JsVal) : Outcome string := t <- interpolate w ;; Returned ("⚠️ " ++ t).
Definition hint (s : JsVal) : Outcome string := t <- interpolate s ;; Returned ("💡 " ++ t).
Definition tick (f : JsVal) : Outcome string := t <- interpolate f ;; Returned ("✅ " ++ t).

Definition respond (st : nat) (p : Payload) : Outcome Response :=
  Returned (mkResponse st p).

(** The handler's outer [try]/[catch]: an error becomes a 500. *)
Definition guarded (body : Outcome Response) : Response :=
  match body with
  | Returned r => r
  | Threw e => mkResponse 500 (ErrorPayload (JStr (message e)))
  end.

(** [router.post('/convert', ...)] *)
Definition postConvert (sb : Supabase) (body : Body) : Response :=
  let useAI := withDefault (JBool false) (useAI body) in
  if negb (truthy (sourceLang body)) || negb (truthy (targetLang body))
     || negb (truthy (inputCode body))
  then mkResponse 400 (ErrorPayload (JStr "sourceLang, targetLang, inputCode required"))
  else guarded
    (result <-
       (if truthy useAI && Gemini.isConfigured geminiService
        then Gemini.mapOutcome ofCodeResult
               (Methods.convertCodeWithAI trim remote geminiService
                  (inputCode body) (sourceLang body) (targetLang body))
        else convertCode (inputCode body) (sourceLang body) (targetLang body)) ;;
     if negb (success result)
     then respond 500 (ErrorPayload (error result))
     else
       syntaxAnalysis <- analyzeSyntax (outputCode result) (targetLang body) ;;
       qualityMetrics <- generateQualityMetrics (outputCode result) (targetLang body) ;;
       metrics <- metricLines qualityMetrics ;;
       warned <- mapM warn (warnings syntaxAnalysis) ;;
       hinted <- mapM hint (suggestions syntaxAnalysis) ;;
       let combinedAnalysis := analysis result +++ metrics +++ warned +++ hinted in
       saved <- saveHistory sb
                  (mkEntry (sourceLang body) (targetLang body) (inputCode body)
                           (outputCode result) combinedAnalysis useAI) ;;
       respond 200
         (ResultPayload
            (mkResultBody (outputCode result) combinedAnalysis (savedId saved)
                          useAI qualityMetrics))).

(** [router.post('/fix', ...)] *)
Definition postFix (sb : Supabase) (body : Body) : Response :=
  let useAI := withDefault (JBool false) (useAI body) in
  if negb (truthy (language body)) || negb (truthy (inputCode body))
  then mkResponse 400 (ErrorPayload (JStr "language, inputCode required"))
  else guarded
    (result <-
       (if truthy useAI && Gemini.isConfigured geminiService
        then Gemini.mapOutcome ofCodeResult
               (Methods.fixCodeWithAI trim remote geminiService
                  (inputCode body) (language body))
        else
          syntaxAnalysis <- analyzeSyntax (inputCode body) (language body) ;;
          fixResult <- fixSyntaxErrors (inputCode body) (language body) ;;
          ticked <- mapM tick (fixes fixResult) ;;
          warned <- mapM warn (warnings syntaxAnalysis) ;;
          hinted <- mapM hint (suggestions syntaxAnalysis) ;;
          Returned
            (mkResult true JNull JUndefined (fixedCode fixResult)
               ([ "✅ Syntax analysis completed";
                  "✅ Found " ++ natStr (List.length (errors syntaxAnalysis)) ++ " errors";
                  "✅ Found " ++ natStr (List.length (warnings syntaxAnalysis)) ++ " warnings" ]
                +++ ticked +++ warned +++ hinted))) ;;
     if negb (success result)
     then respond 500 (ErrorPayload (error result))
     else
       qualityMetrics <- generateQualityMetrics (code result) (language body) ;;
       metrics <- metricLines qualityMetrics ;;
       let combinedAnalysis := analysis result +++ metrics in
       saved <- saveHistory sb
                  (mkEntry (language body) JNull (inputCode body)
                           (code result) combinedAnalysis useAI) ;;
       respond 200
         (ResultPayload
            (mkResultBody (code result) combinedAnalysis (savedId saved)
                          useAI qualityMetrics))).

(** The response with its [id] field forgotten. *)
Definition withoutId (r : Response) : Response :=
  match payload r with
  | ErrorPayload _ => r
  | ResultPayload b =>
      mkResponse (status r)
        (ResultPayload (mkResultBody (b_outputCode b) (b_analysis b) JUndefined
                                     (b_useAI b) (b_qualityMetrics b)))
  end.

(** The [id] of a response; an error response has none. *)
Definition responseId (r : Response) : JsVal :=
  match payload r with
  | ErrorPayload _ => JUndefined
  | ResultPayload b => b_id b
  end.

(** Persistence fails on an entry when Supabase is not configured, or the
    insert rejects, or it resolves with an error. *)
Definition persistenceFails (sb : Supabase) (e : HistoryEntry) : bool :=
  negb (isSupabaseConfigured sb)
  || match insert sb TABLE e with
     | Rejected _ => true
     | Resolved _ (Some _) => true
     | Resolved _ None => false
     end.

End Handlers.

End Routes.

(* ===================================================================== *)
(** ** The rule-based engine, from its design document *)
(* ===================================================================== *)

Module Engine.
Import Js JsNotations.

(** *** Text *)

Definition isBlank (c : ascii) : bool :=
  Ascii.eqb c " "%char || Ascii.eqb c "009"%char || Ascii.eqb c "013"%char.

(** [text.split('\n')] *)
Fixpoint splitLines (s : string) : list string :=
  match s with
  | EmptyString => [""]
  | String c rest =>
      if Ascii.eqb c LF then "" :: splitLines rest
      else match splitLines rest with
           | l :: ls => String c l :: ls
           | [] => [String c ""]
           end
  end.

(** [lines.join('\n')] *)
Definition joinLines (ls : list string) : string := String.concat nl ls.

Fixpoint trimLeft (s : string) : string :=
  match s with
  | String c rest => if isBlank c then trimLeft rest else s
  | EmptyString => s
  end.

Fixpoint trimRight (s : string) : string :=
  match s with
  | String c rest =>
      let r := trimRight rest in
      if isBlank c && String.eqb r "" then "" else String c r
  | EmptyString => ""
  end.

Definition trimLine (s : string) : string := trimRight (trimLeft s).

(** The width of the leading white space of a line. *)
Fixpoint indentation (s : string) : nat :=
  match s with
  | String c rest => if isBlank c then S (indentation rest) else 0
  | EmptyString => 0
  end.

Fixpoint stripPrefix (p s : string) : option string :=
  match p, s with
  | EmptyString, _ => Some s
  | String a p', String b s' => if Ascii.eqb a b then stripPrefix p' s' else None
  | String _ _, EmptyString => None
  end.

Definition startsWith (p s : string) : bool :=
  match stripPrefix p s with
  | Some _ => true
  | None => false
  end.

Fixpoint lastChar (s : string) : option ascii :=
  match s with
  | EmptyString => None
  | String c EmptyString => Some c
  | String _ rest => lastChar rest
  end.

(** Whether [sub] occurs in [s]. *)
Fixpoint contains (sub s : string) : bool :=
  startsWith sub s
  || match s with
     | String _ rest => contains sub rest
     | EmptyString => false
     end.

(** The number of positions of [s] at which [sub] starts. *)
Fixpoint occurrences (sub s : string) : nat :=
  match s with
  | String _ rest => (if startsWith sub s then 1 else 0) + occurrences sub rest
  | EmptyString => 0
  end.

Fixpoint repeatStr (s : string) (n : nat) : string :=
  match n with
  | O => ""
  | S n' => s ++ repeatStr s n'
  end.

(** *** Languages *)

(** Modelled from the spec: the fixed closed set of six supported
    languages of the absent [codeTransformer.js]; the tags are those the
    language selector of [src/client/pages/index.tsx] offers. *)
Inductive Language : Type := Python | Java | JavaScript | CSharp | Cpp | Go.

Definition supportedLanguages : list (string * Language) :=
  [ ("Python", Python); ("Java", Java); ("JavaScript", JavaScript);
    ("C#", CSharp); ("C++", Cpp); ("Go", Go) ].

Fixpoint assoc {V : Type} (key : string) (m : list (string * V)) : option V :=
  match m with
  | [] => None
  | (k, v) :: rest => if String.eqb k key then Some v else assoc key rest
  end.

(** A language tag names a supported language when it is a string of the
    set. *)
Definition languageOfTag (tag : JsVal) : option Language :=
  match tag with
  | JStr t => assoc t supportedLanguages
  | _ => None
  end.

Definition isSupported (tag : JsVal) : bool :=
  match languageOfTag tag with
  | Some _ => true
  | None => false
  end.

(** *** Data model (section 3 of the design) *)

Inductive NodeKind : Type :=
| Program | FunctionDecl | ClassDecl | VarDecl | Assignment | If | For | While
| Print | Return | Comment | Unknown.

Definition NodeKind_eqb (a b : NodeKind) : bool :=
  match a, b with
  | Program, Program | FunctionDecl, FunctionDecl | ClassDecl, ClassDecl
  | VarDecl, VarDecl | Assignment, Assignment | If, If | For, For
  | While, While | Print, Print | Return, Return | Comment, Comment
  | Unknown, Unknown => true
  | _, _ => false
  end.

Definition kindName (k : NodeKind) : string :=
  match k with
  | Program => "Program" | FunctionDecl => "FunctionDecl"
  | ClassDecl => "ClassDecl" | VarDecl => "VarDecl"
  | Assignment => "Assignment" | If => "If" | For => "For"
  | While => "While" | Print => "Print" | Return => "Return"
  | Comment => "Comment" | Unknown => "Unknown"
  end.

(** Modelled from the spec: [IRNode], the node of the intermediate
    representation that the absent extractor builds.  The attribute
    ["text"] holds the raw source text of the node verbatim. *)
#[warnings="-register-all"]
Inductive IRNode : Type :=
| Node (kind : NodeKind) (attributes : list (string * string))
       (children : list IRNode) (sourceLines : nat * nat).

Definition nodeKind (n : IRNode) : NodeKind := let 'Node k _ _ _ := n in k.
Definition nodeAttributes (n : IRNode) : list (string * string) :=
  let 'Node _ a _ _ := n in a.
Definition nodeChildren (n : IRNode) : list IRNode := let 'Node _ _ c _ := n in c.
Definition nodeLines (n : IRNode) : nat * nat := let 'Node _ _ _ l := n in l.

(** One piece of a match template: literal text, or a hole that captures
    text. *)
Inductive TemplateItem : Type :=
| Lit (s : string)
| Hole.

(** Modelled from the spec: [ConstructPattern], one recognisable
    statement shape of a language. *)
Record ConstructPattern : Type := mkPattern {
  kind : NodeKind;
  matchTemplate : list TemplateItem;
  captureNames : list string
}.

(** One piece of a rendering template: literal text or the value of an
    attribute. *)
Inductive RenderItem : Type :=
| Out (s : string)
| Attr (name : string).

Inductive BlockStyle : Type := Indented | Braced.

(** Modelled from the spec: the Language Rule Tables, the static
    per-language data that the extractor, the renderer, the analyzer and
    the metrics share.  Patterns are listed most specific first. *)
Record RuleTables : Type := mkTables {
  patterns : Language -> list ConstructPattern;
  renderTemplate : Language -> NodeKind -> option (list RenderItem);
  blockStyle : Language -> BlockStyle;
  commentToken : Language -> string;
  requiresTerminator : Language -> bool;
  branchKeywords : Language -> list string
}.

(** Modelled from the spec: the thresholds of the readability heuristic
    and of the style suggestions, kept as configuration. *)
Record Thresholds : Type := mkThresholds {
  lineLengthThreshold : nat;
  commentRatioThreshold : nat;
  nestingThreshold : nat
}.

Inductive Severity : Type := Error | Warning | Suggestion.

Inductive Bracket : Type := Paren | Square | Curly.
Inductive Quote : Type := Double | Single.

(** What a finding is about; the fix engine picks its template by it. *)
Inductive FindingKind : Type :=
| UnmatchedCloser (b : Bracket)
| UnmatchedOpener (b : Bracket)
| UnterminatedString (q : Quote)
| MissingTerminator
| BlockNotIndented
| LongLine
| DeepNesting.

(** Modelled from the spec: [AnalysisFinding]. *)
Record AnalysisFinding : Type := mkFinding {
  severity : Severity;
  finding : FindingKind;
  message : string;
  lineRange : nat * nat
}.

(** Modelled from the spec: [FixRecord]. *)
Record FixRecord : Type := mkFixRecord {
  description : string;
  fixedLines : nat * nat
}.

Inductive Readability : Type := Poor | Fair | Good | Excellent.

(** Modelled from the spec: [QualityMetrics]. *)
Record QualityMetrics : Type := mkQuality {
  linesOfCode : nat;
  functions : nat;
  classes : nat;
  complexity : nat;
  readability : Readability
}.

Inductive EngineError : Type :=
| InvalidInput
| UnsupportedLanguage (tag : JsVal).

Record ConvertResult : Type := mkConvert {
  success : bool;
  outputCode : string;
  analysis : list string;
  error : option EngineError
}.

Record SyntaxReport : Type := mkReport {
  errors : list AnalysisFinding;
  warnings : list AnalysisFinding;
  suggestions : list AnalysisFinding
}.

Record FixOutcome : Type := mkFixOutcome {
  code : string;
  fixes : list FixRecord
}.

(** *** Frontend extractor (section 4.1) *)

(** Modelled from the spec: how the extractor of the absent
    [codeTransformer.js] attempts a pattern on a line (section 4.1).
    Matches a template against a whole line.  A hole captures the shortest
    text after which the rest of the template matches. *)
Fixpoint matchItems (t : list TemplateItem) : string -> option (list string) :=
  match t with
  | [] => fun s => if String.eqb s "" then Some [] else None
  | Lit l :: t' =>
      fun s =>
        match stripPrefix l s with
        | Some rest => matchItems t' rest
        | None => None
        end
  | Hole :: t' =>
      fix hole (s : string) : option (list string) :=
        match matchItems t' s with
        | Some caps => Some ("" :: caps)
        | None =>
            match s with
            | String c rest =>
                match hole rest with
                | Some (cap :: caps) => Some (String c cap :: caps)
                | _ => None
                end
            | EmptyString => None
            end
        end
  end.

(** Modelled from the spec: the attempt of every pattern of the absent
    [codeTransformer.js] in priority order; the first that matches wins. *)
Fixpoint firstMatch (ps : list ConstructPattern) (line : string)
  : option (ConstructPattern * list string) :=
  match ps with
  | [] => None
  | p :: rest =>
      match matchItems (matchTemplate p) line with
      | Some caps => Some (p, caps)
      | None => firstMatch rest line
      end
  end.

(** The kind of construct a line is, by the first pattern that matches
    its trimmed text; [Unknown] when none does. *)
Definition classify (rt : RuleTables) (lang : Language) (line : string) : NodeKind :=
  match firstMatch (patterns rt lang) (trimLine line) with
  | Some (p, _) => kind p
  | None => Unknown
  end.

Definition unknownNode (raw : string) (lines : nat * nat) : IRNode :=
  Node Unknown [("text", raw)] [] lines.

(** Modelled from the spec: the typed node that the absent
    [codeTransformer.js] emits on a match (section 4.1).  Builds the typed
    node of a matched pattern.  A pattern whose capture names do not fit
    its holes is a failure of that construct. *)
Definition buildNode (p : ConstructPattern) (caps : list string) (raw : string)
    (i : nat) : Outcome IRNode :=
  if Nat.eqb (List.length caps) (List.length (captureNames p))
  then Returned (Node (kind p) (("text", raw) :: combine (captureNames p) caps) [] (i, i))
  else Threw (mkError ("capture mismatch in " ++ kindName (kind p))).

(** Modelled from the spec: the degradation of the absent
    [codeTransformer.js] (sections 4.1 and 7).  One line to one node: the
    first matching pattern, or [Unknown] on no match and on a failure of
    the construct. *)
Definition lineNode (rt : RuleTables) (lang : Language) (i : nat) (raw : string)
  : IRNode :=
  match firstMatch (patterns rt lang) (trimLine raw) with
  | Some (p, caps) =>
      match buildNode p caps raw i with
      | Returned n => n
      | Threw _ => unknownNode raw (i, i)
      end
  | None => unknownNode raw (i, i)
  end.

Definition countChar (c : ascii) (s : string) : nat :=
  occurrences (String c "") s.

(** Modelled from the spec: the nesting-depth counter of the absent
    [codeTransformer.js] (section 4.1).  Gives every non-blank line its
    nesting depth and its node.  In an indented language the depth is the
    indentation; in a braced one it is the count of blocks open at the
    line, and a line that is a lone closing brace yields no node.  A
    closing brace with no block open is a failure of the whole extraction. *)
Fixpoint depthNodes (rt : RuleTables) (lang : Language) (i : nat) (open : nat)
    (lines : list string) : Outcome (list (nat * IRNode)) :=
  match lines with
  | [] => Returned []
  | raw :: rest =>
      let text := trimLine raw in
      if String.eqb text "" then depthNodes rt lang (S i) open rest
      else
        match blockStyle rt lang with
        | Indented =>
            more <- depthNodes rt lang (S i) open rest ;;
            Returned ((indentation raw, lineNode rt lang i raw) :: more)
        | Braced =>
            let opens := countChar "{"%char text in
            let closes := countChar "}"%char text in
            let lead := if startsWith "}" text then 1 else 0 in
            if Nat.ltb open lead || Nat.ltb (open + opens) closes
            then Threw (mkError "closing brace without an open block")
            else
              more <- depthNodes rt lang (S i) (open + opens - closes) rest ;;
              if String.eqb text "}" then Returned more
              else Returned ((open - lead, lineNode rt lang i raw) :: more)
        end
  end.

Fixpoint lastEnd (dflt : nat) (kids : list IRNode) : nat :=
  match kids with
  | [] => dflt
  | k :: rest => lastEnd (snd (nodeLines k)) rest
  end.

(** A header takes the nodes nested under it as its children, and its
    line range grows to their end. *)
Definition adopt (n : IRNode) (kids : list IRNode) : IRNode :=
  let 'Node k a _ (s, e) := n in Node k a kids (s, lastEnd e kids).

Fixpoint takeDeeper (d : nat) (f : list (nat * IRNode)) : list (nat * IRNode) :=
  match f with
  | (d', n) :: rest => if Nat.ltb d d' then (d', n) :: takeDeeper d rest else []
  | [] => []
  end.

Fixpoint dropDeeper (d : nat) (f : list (nat * IRNode)) : list (nat * IRNode) :=
  match f with
  | (d', n) :: rest => if Nat.ltb d d' then dropDeeper d rest else f
  | [] => []
  end.

(** Modelled from the spec: the nesting of children under the most recent
    open block header, in the absent [codeTransformer.js] (section 4.1).
    Nests each node under the most recent header that is less deep: the
    nodes that follow a node and are deeper than it, up to the next node
    that is not, are its children, in source order. *)
Fixpoint nest (items : list (nat * IRNode)) : list (nat * IRNode) :=
  match items with
  | [] => []
  | (d, n) :: rest =>
      let forest := nest rest in
      (d, adopt n (map snd (takeDeeper d forest))) :: dropDeeper d forest
  end.

Definition programNode (kids : list IRNode) (lines : nat) : IRNode :=
  Node Program [] kids (1, lines).

(** Modelled from the spec: the body of [extract] in the absent
    [codeTransformer.js], before its fallback; it can fail. *)
Definition extractStructured (rt : RuleTables) (sourceText : string)
    (sourceLang : Language) : Outcome IRNode :=
  let lines := splitLines sourceText in
  items <- depthNodes rt sourceLang 1 0 lines ;;
  Returned (programNode (map snd (nest items)) (List.length lines)).

(** Modelled from the spec: [extract(sourceText, sourceLang)] of the
    absent [codeTransformer.js].  A failure of the extraction is caught
    here and becomes the designed fallback: a program whose only child is
    one [Unknown] node holding the entire input. *)
Definition extract (rt : RuleTables) (sourceText : string) (sourceLang : Language)
  : Outcome IRNode :=
  tryCatch (extractStructured rt sourceText sourceLang)
    (fun _ =>
       let n := List.length (splitLines sourceText) in
       Returned (programNode [unknownNode sourceText (1, n)] n)).

(** *** Backend renderer (section 4.2) *)

Definition attribute (name : string) (n : IRNode) : option string :=
  assoc name (nodeAttributes n).

(** Substitutes the attributes of a node into a rendering template; an
    attribute that the node lacks is a failure of that construct. *)
Fixpoint fill (t : list RenderItem) (n : IRNode) : Outcome string :=
  match t with
  | [] => Returned ""
  | Out s :: t' => rest <- fill t' n ;; Returned (s ++ rest)
  | Attr a :: t' =>
      match attribute a n with
      | Some v => rest <- fill t' n ;; Returned (v ++ rest)
      | None => Threw (mkError ("missing attribute " ++ a))
      end
  end.

(** The header line of a typed node in the target language. *)
Definition renderHeader (rt : RuleTables) (lang : Language) (n : IRNode)
  : Outcome string :=
  match renderTemplate rt lang (nodeKind n) with
  | Some t => fill t n
  | None => Threw (mkError ("no template for " ++ kindName (nodeKind n)))
  end.

(** The raw text of a node, re-emitted verbatim. *)
Definition verbatim (n : IRNode) : string :=
  match attribute "text" n with
  | Some raw => raw
  | None => ""
  end.

Definition opensBlock (k : NodeKind) : bool :=
  match k with
  | FunctionDecl | ClassDecl | If | For | While => true
  | _ => false
  end.

Definition indent (depth : nat) : string := repeatStr "    " depth.

(** Modelled from the spec: the depth-first walk of the renderer of the
    absent [codeTransformer.js] (section 4.2).  The lines of a node and of
    its subtree, depth first.  A typed node emits its template at the
    indentation of its depth, then its children one level deeper, then the
    closing brace of a block in a braced target.  An [Unknown] node, and a
    typed node whose template fails, is re-emitted verbatim. *)
Fixpoint renderNode (rt : RuleTables) (lang : Language) (depth : nat) (n : IRNode)
  : list string :=
  let 'Node k _ kids _ := n in
  match k with
  | Program => flat_map (renderNode rt lang depth) kids
  | Unknown => verbatim n :: flat_map (renderNode rt lang (S depth)) kids
  | _ =>
      match renderHeader rt lang n with
      | Returned header =>
          ((indent depth ++ header)
             :: flat_map (renderNode rt lang (S depth)) kids)
          +++ (match blockStyle rt lang with
               | Braced => if opensBlock k then [indent depth ++ "}"] else []
               | Indented => []
               end)
      | Threw _ => verbatim n :: flat_map (renderNode rt lang (S depth)) kids
      end
  end.

(** Modelled from the spec: [render(ir, targetLang)] of the absent
    [codeTransformer.js]. *)
Definition render (rt : RuleTables) (ir : IRNode) (targetLang : Language) : string :=
  joinLines (renderNode rt targetLang 0 ir).

(** *** Transformer (section 4.3) *)

Definition failed (e : EngineError) : ConvertResult := mkConvert false "" [] (Some e).

Fixpoint countKind (k : NodeKind) (n : IRNode) : nat :=
  let 'Node k' _ kids _ := n in
  (if NodeKind_eqb k k' then 1 else 0) + list_sum (map (countKind k) kids).

Definition typedKinds : list NodeKind :=
  [FunctionDecl; ClassDecl; VarDecl; Assignment; If; For; While; Print; Return; Comment].

(** Modelled from the spec: the analysis list of the absent
    [codeTransformer.js] (section 4.3).  For each construct kind that
    occurs, how many nodes were translated, and how many nodes were left
    as [Unknown]. *)
Definition summarize (ir : IRNode) : list string :=
  flat_map (fun k =>
              let c := countKind k ir in
              if Nat.eqb c 0 then []
              else [kindName k ++ ": " ++ natStr c ++ " translated"])
           typedKinds
  +++ (let u := countKind Unknown ir in
       if Nat.eqb u 0 then []
       else ["Unknown: " ++ natStr u ++ " left untranslated"]).

(** Modelled from the spec: [convertCode(sourceText, sourceLang,
    targetLang)] of the absent [codeTransformer.js]: validate both
    language tags, reject an input that is not a non-empty text, run the
    extractor, run the renderer, summarise. *)
Definition convertCode (rt : RuleTables) (sourceText sourceLang targetLang : JsVal)
  : Outcome ConvertResult :=
  match languageOfTag sourceLang, languageOfTag targetLang with
  | Some sl, Some tl =>
      match sourceText with
      | JStr text =>
          if String.eqb text "" then Returned (failed InvalidInput)
          else
            ir <- extract rt text sl ;;
            Returned (mkConvert true (render rt ir tl) (summarize ir) None)
      | _ => Returned (failed InvalidInput)
      end
  | None, _ => Returned (failed (UnsupportedLanguage sourceLang))
  | Some _, None => Returned (failed (UnsupportedLanguage targetLang))
  end.

(** *** Syntax analyzer (section 4.4) *)

Definition Bracket_eqb (a b : Bracket) : bool :=
  match a, b with
  | Paren, Paren | Square, Square | Curly, Curly => true
  | _, _ => false
  end.

Definition openerChar (b : Bracket) : ascii :=
  match b with Paren => "("%char | Square => "["%char | Curly => "{"%char end.

Definition closerChar (b : Bracket) : ascii :=
  match b with Paren => ")"%char | Square => "]"%char | Curly => "}"%char end.

Definition bracketOfOpener (c : ascii) : option Bracket :=
  if Ascii.eqb c "("%char then Some Paren
  else if Ascii.eqb c "["%char then Some Square
  else if Ascii.eqb c "{"%char then Some Curly
  else None.

Definition bracketOfCloser (c : ascii) : option Bracket :=
  if Ascii.eqb c ")"%char then Some Paren
  else if Ascii.eqb c "]"%char then Some Square
  else if Ascii.eqb c "}"%char then Some Curly
  else None.

(** The state of the balance check: the openers not yet closed, the most
    recent first, each with its line, and the first unmatched closer met
    so far. *)
Record Balance : Type := mkBalance {
  stack : list (Bracket * nat);
  firstBad : option (Bracket * nat)
}.

Definition flagCloser (b : Bracket) (line : nat) (st : Balance) : Balance :=
  mkBalance (stack st)
            (match firstBad st with
             | Some x => Some x
             | None => Some (b, line)
             end).

(** Modelled from the spec: the balance check of the absent
    [codeAnalyzer.js] (section 4.4).  One character of the stack-based
    matching: an opener is pushed; a closer pops the opener it matches on
    top of the stack, and is unmatched otherwise. *)
Definition stepBalance (line : nat) (c : ascii) (st : Balance) : Balance :=
  match bracketOfOpener c with
  | Some b => mkBalance ((b, line) :: stack st) (firstBad st)
  | None =>
      match bracketOfCloser c with
      | Some b =>
          match stack st with
          | (o, _) :: rest =>
              if Bracket_eqb o b then mkBalance rest (firstBad st)
              else flagCloser b line st
          | [] => flagCloser b line st
          end
      | None => st
      end
  end.

Definition quoteChar (q : Quote) : ascii :=
  match q with Double => DQ | Single => "'"%char end.

Definition BS : ascii := "092"%char.

(** The state of the scan: the balance, the string literal that the scan
    is inside of, if any, and whether the character before was the
    backslash of an escape. *)
Record Scan : Type := mkScan {
  balance : Balance;
  inside : option Quote;
  escaped : bool
}.

(** Modelled from the spec: the scan of the balance check (section 4.4)
    over one character.  Brackets are matched outside string literals
    only; a literal runs from its quote to the next quote of its kind
    that no backslash escapes, and no further than the end of its line,
    as in the string check. *)
Definition stepScan (line : nat) (c : ascii) (st : Scan) : Scan :=
  match inside st with
  | Some q =>
      if Ascii.eqb c LF then mkScan (balance st) None false
      else if escaped st then mkScan (balance st) (Some q) false
      else if Ascii.eqb c BS then mkScan (balance st) (Some q) true
      else if Ascii.eqb c (quoteChar q) then mkScan (balance st) None false
      else st
  | None =>
      if Ascii.eqb c DQ then mkScan (balance st) (Some Double) false
      else if Ascii.eqb c "'"%char then mkScan (balance st) (Some Single) false
      else mkScan (stepBalance line c (balance st)) None false
  end.

Fixpoint scanBalance (s : string) (line : nat) (st : Scan) : Scan :=
  match s with
  | EmptyString => st
  | String c rest =>
      scanBalance rest (if Ascii.eqb c LF then S line else line) (stepScan line c st)
  end.

Definition closerFinding (x : Bracket * nat) : AnalysisFinding :=
  mkFinding Error (UnmatchedCloser (fst x))
            ("Unmatched closing " ++ String (closerChar (fst x)) "")
            (snd x, snd x).

Definition openerFinding (x : Bracket * nat) : AnalysisFinding :=
  mkFinding Error (UnmatchedOpener (fst x))
            ("Unclosed " ++ String (openerChar (fst x)) "")
            (snd x, snd x).

(** Modelled from the spec: what the balance check of the absent
    [codeAnalyzer.js] reports (section 4.4).  Brace, parenthesis and
    bracket balance: the first unmatched closer, and every opener still
    open at the end of the input. *)
Definition balanceFindings (code : string) : list AnalysisFinding :=
  let st := balance (scanBalance code 1 (mkScan (mkBalance [] None) None false)) in
  (match firstBad st with
   | Some x => [closerFinding x]
   | None => []
   end)
  +++ map openerFinding (stack st).

(** Modelled from the spec: quote parity respecting escape characters, in
    the absent [codeAnalyzer.js] (section 4.4).  The number of quote
    characters [q] of a line that no backslash escapes; a backslash
    escapes the character that follows it. *)
Fixpoint countQuotes (q : ascii) (s : string) : nat :=
  match s with
  | EmptyString => 0
  | String c rest =>
      if Ascii.eqb c BS
      then match rest with
           | String _ rest' => countQuotes q rest'
           | EmptyString => 0
           end
      else (if Ascii.eqb c q then 1 else 0) + countQuotes q rest
  end.

Definition stringFinding (i : nat) (q : Quote) : AnalysisFinding :=
  mkFinding Error (UnterminatedString q)
            ("Unterminated string literal, missing " ++ String (quoteChar q) "")
            (i, i).

(** Modelled from the spec: the string check of the absent
    [codeAnalyzer.js] (section 4.4).  String-literal termination of one
    line, by quote parity. *)
Definition lineStringFindings (i : nat) (line : string) : list AnalysisFinding :=
  flat_map (fun q =>
              if Nat.odd (countQuotes (quoteChar q) line)
              then [stringFinding i q] else [])
           [Double; Single].

Fixpoint numbered {A : Type} (i : nat) (l : list A) : list (nat * A) :=
  match l with
  | [] => []
  | x :: rest => (i, x) :: numbered (S i) rest
  end.

Definition perLine (f : nat -> string -> list AnalysisFinding) (code : string)
  : list AnalysisFinding :=
  flat_map (fun il => f (fst il) (snd il)) (numbered 1 (splitLines code)).

Definition stringFindings (code : string) : list AnalysisFinding :=
  perLine lineStringFindings code.

Definition isCommentLine (rt : RuleTables) (lang : Language) (line : string) : bool :=
  startsWith (commentToken rt lang) (trimLine line).

Definition isEmptyLine (line : string) : bool := String.eqb (trimLine line) "".

(** Modelled from the spec: the terminator check of the absent
    [codeAnalyzer.js] (section 4.4).  A statement line lacks its
    terminator when it is neither blank nor a comment and ends in none of
    [;], [{] and [}]. *)
Definition lacksTerminator (rt : RuleTables) (lang : Language) (line : string) : bool :=
  negb (isEmptyLine line) && negb (isCommentLine rt lang line)
  && match lastChar (trimLine line) with
     | Some c => negb (Ascii.eqb c ";"%char || Ascii.eqb c "{"%char
                       || Ascii.eqb c "}"%char)
     | None => false
     end.

Definition terminatorFinding (i : nat) : AnalysisFinding :=
  mkFinding Error MissingTerminator "Missing statement terminator" (i, i).

Definition terminatorFindings (rt : RuleTables) (lang : Language) (code : string)
  : list AnalysisFinding :=
  if requiresTerminator rt lang
  then perLine (fun i line =>
                  if lacksTerminator rt lang line then [terminatorFinding i] else [])
               code
  else [].

Fixpoint nextIndentation (lines : list string) : option nat :=
  match lines with
  | [] => None
  | l :: rest => if isEmptyLine l then nextIndentation rest else Some (indentation l)
  end.

(** Modelled from the spec: the block-consistency check of the absent
    [codeAnalyzer.js] (section 4.4), a warning.  In an indented language,
    a block header (a line that ends in a colon) that no deeper-indented
    line follows. *)
Fixpoint blockFindings (i : nat) (lines : list string) : list AnalysisFinding :=
  match lines with
  | [] => []
  | l :: rest =>
      (match lastChar (trimLine l) with
       | Some c =>
           if Ascii.eqb c ":"%char
              && negb (match nextIndentation rest with
                       | Some d => Nat.ltb (indentation l) d
                       | None => false
                       end)
           then [mkFinding Warning BlockNotIndented
                           "Block header is not followed by an indented block" (i, i)]
           else []
       | None => []
       end)
      +++ blockFindings (S i) rest
  end.

Definition styleFindings (cfg : Thresholds) (i : nat) (line : string)
  : list AnalysisFinding :=
  (if Nat.ltb (lineLengthThreshold cfg) (String.length line)
   then [mkFinding Suggestion LongLine "Line is long; consider breaking it" (i, i)]
   else [])
  +++ (if Nat.ltb (nestingThreshold cfg) (indentation line / 4)
       then [mkFinding Suggestion DeepNesting
                       "Deep nesting; consider extracting a function" (i, i)]
       else []).

(** Modelled from the spec: [analyzeSyntax(code, language)] of the absent
    [codeAnalyzer.js] (section 4.4).  The checks are language-specific.
    The string check runs for every language.  The balance check runs
    for the languages whose blocks are delimited by braces; for an
    indentation language the block check runs in its place, as a warning.
    So the Python line [print(] followed by an open string has one
    finding of severity [Error], that of the string, as in the scenario
    of section 8.  The terminator check runs for the languages that
    require a terminator.  The findings of severity [Error] are listed
    with those of the strings first, then those of the balance, then
    those of the terminators. *)
Definition analyzeSyntax (cfg : Thresholds) (rt : RuleTables) (code : string)
    (lang : Language) : SyntaxReport :=
  mkReport
    (stringFindings code
     +++ (match blockStyle rt lang with
          | Braced => balanceFindings code
          | Indented => []
          end)
     +++ terminatorFindings rt lang code)
    (match blockStyle rt lang with
     | Indented => blockFindings 1 (splitLines code)
     | Braced => []
     end)
    (perLine (styleFindings cfg) code).

(** *** Fix engine (section 4.5) *)

(** Inserts [ins] at the end of line [n] (counted from 0) of [code]; does
    nothing when the code has no such line. *)
Fixpoint appendToLine (n : nat) (ins : string) (code : string) : string :=
  match code with
  | EmptyString => match n with O => ins | S _ => "" end
  | String c rest =>
      if Ascii.eqb c LF
      then match n with
           | O => ins ++ code
           | S n' => String c (appendToLine n' ins rest)
           end
      else String c (appendToLine n ins rest)
  end.

(** Modelled from the spec: the corrective templates of the absent
    [codeAnalyzer.js] (section 4.5), which names three: the quote of an
    unterminated string goes at the end of its line, the closer of an
    opener left open goes where the imbalance shows, at the end of the
    input, and the missing terminator goes at the end of its line.  The
    findings are consumed in the order of the analysis, so a closer is
    inserted after the strings have been closed.  Section 4.5 names no
    template for the other findings, an unmatched closer among them;
    they are left unresolved. *)
Definition applyTemplate (f : AnalysisFinding) (code : string) : option string :=
  match finding f with
  | UnmatchedOpener b => Some (code ++ String (closerChar b) "")
  | UnterminatedString q =>
      Some (appendToLine (fst (lineRange f) - 1) (String (quoteChar q) "") code)
  | MissingTerminator => Some (appendToLine (fst (lineRange f) - 1) ";" code)
  | UnmatchedCloser _ | BlockNotIndented | LongLine | DeepNesting => None
  end.

(** Modelled from the spec: the consumption of one finding by the fix
    engine of the absent [codeAnalyzer.js]: its edit is applied and
    recorded, or it is left unresolved. *)
Definition fixStep (acc : FixOutcome) (f : AnalysisFinding) : FixOutcome :=
  match applyTemplate f (code acc) with
  | Some code' =>
      mkFixOutcome code' (fixes acc +++ [mkFixRecord ("Fixed: " ++ message f) (lineRange f)])
  | None => acc
  end.

(** Modelled from the spec: [fixSyntaxErrors(code, language)] of the
    absent [codeAnalyzer.js]: the findings of severity [Error] of one
    analysis, consumed in order. *)
Definition fixSyntaxErrors (cfg : Thresholds) (rt : RuleTables) (code : string)
    (lang : Language) : FixOutcome :=
  fold_left fixStep (errors (analyzeSyntax cfg rt code lang)) (mkFixOutcome code []).

(** *** Quality metrics (section 4.6) *)

Definition isCodeLine (rt : RuleTables) (lang : Language) (line : string) : bool :=
  negb (isEmptyLine line) && negb (isCommentLine rt lang line).

Definition countLines (f : string -> bool) (lines : list string) : nat :=
  List.length (filter f lines).

Definition declares (rt : RuleTables) (lang : Language) (k : NodeKind) (line : string)
  : bool :=
  NodeKind_eqb (classify rt lang line) k.

Definition bucket (score : nat) : Readability :=
  match score with
  | 0 => Poor
  | 1 => Fair
  | 2 => Good
  | _ => Excellent
  end.

Definition point (b : bool) : nat := if b then 1 else 0.

(** Modelled from the spec: the composite readability score of the absent
    [codeAnalyzer.js] (section 4.6).  One point for each of: an average
    line length within its threshold, a share of comment lines (in
    percent) of at least its threshold, an average nesting depth (four
    columns a level) within its threshold; averages are over the non-blank
    lines. *)
Definition readabilityScore (cfg : Thresholds) (rt : RuleTables) (lang : Language)
    (lines : list string) : nat :=
  let full := filter (fun l => negb (isEmptyLine l)) lines in
  let n := List.length full in
  point (Nat.leb (list_sum (map String.length full)) (lineLengthThreshold cfg * n))
  + point (Nat.leb (commentRatioThreshold cfg * n)
                   (100 * countLines (isCommentLine rt lang) full))
  + point (Nat.leb (list_sum (map indentation full)) (4 * nestingThreshold cfg * n)).

(** Modelled from the spec: [generateQualityMetrics(code, language)] of
    the absent [codeAnalyzer.js]. *)
Definition generateQualityMetrics (cfg : Thresholds) (rt : RuleTables) (code : string)
    (lang : Language) : QualityMetrics :=
  let lines := splitLines code in
  mkQuality
    (countLines (isCodeLine rt lang) lines)
    (countLines (declares rt lang FunctionDecl) lines)
    (countLines (declares rt lang ClassDecl) lines)
    (1 + list_sum (map (fun kw => occurrences kw code) (branchKeywords rt lang)))
    (bucket (readabilityScore cfg rt lang lines)).

(** *** The rule tables in use *)

(** A row of a rule table: a construct kind and its template in the
    language.  Read as a rendering template it substitutes attributes;
    read as a match template every attribute is a hole that captures
    it. *)
Definition Row : Type := (NodeKind * list RenderItem)%type.

Definition holeOf (r : RenderItem) : TemplateItem :=
  match r with
  | Out s => Lit s
  | Attr _ => Hole
  end.

Definition namesOf (t : list RenderItem) : list string :=
  flat_map (fun r => match r with Attr a => [a] | Out _ => [] end) t.

Definition patternOf (r : Row) : ConstructPattern :=
  mkPattern (fst r) (map holeOf (snd r)) (namesOf (snd r)).

Fixpoint templateOf (rows : list Row) (k : NodeKind) : option (list RenderItem) :=
  match rows with
  | [] => None
  | (k', t) :: rest => if NodeKind_eqb k k' then Some t else templateOf rest k
  end.

Definition curlyRows (fn cls loop print decl : list RenderItem) : list Row :=
  [ (Comment, [Out "//"; Attr "comment"]);
    (ClassDecl, cls);
    (FunctionDecl, fn);
    (For, loop);
    (While, [Out "while ("; Attr "condition"; Out ") {"]);
    (If, [Out "if ("; Attr "condition"; Out ") {"]);
    (Return, [Out "return "; Attr "value"; Out ";"]);
    (Print, print);
    (VarDecl, decl);
    (Assignment, [Attr "name"; Out " = "; Attr "value"; Out ";"]) ].

(** Modelled from the spec: the rows of the Rule Tables.  The design gives
    the templates [def name(params):] and [function name(params) {] and
    the construct kinds; the other rows are the usual spelling of the
    construct in the language. *)
Definition rows (lang : Language) : list Row :=
  match lang with
  | Python =>
      [ (Comment, [Out "#"; Attr "comment"]);
        (ClassDecl, [Out "class "; Attr "name"; Out ":"]);
        (FunctionDecl, [Out "def "; Attr "name"; Out "("; Attr "params"; Out "):"]);
        (For, [Out "for "; Attr "variable"; Out " in "; Attr "range"; Out ":"]);
        (While, [Out "while "; Attr "condition"; Out ":"]);
        (If, [Out "if "; Attr "condition"; Out ":"]);
        (Return, [Out "return "; Attr "value"]);
        (Print, [Out "print("; Attr "value"; Out ")"]);
        (Assignment, [Attr "name"; Out " = "; Attr "value"]);
        (VarDecl, [Attr "name"; Out " = "; Attr "value"]) ]
  | JavaScript =>
      curlyRows
        [Out "function "; Attr "name"; Out "("; Attr "params"; Out ") {"]
        [Out "class "; Attr "name"; Out " {"]
        [Out "for (const "; Attr "variable"; Out " of "; Attr "range"; Out ") {"]
        [Out "console.log("; Attr "value"; Out ");"]
        [Out "let "; Attr "name"; Out " = "; Attr "value"; Out ";"]
  | Java =>
      curlyRows
        [Out "public static Object "; Attr "name"; Out "("; Attr "params"; Out ") {"]
        [Out "public class "; Attr "name"; Out " {"]
        [Out "for (var "; Attr "variable"; Out " : "; Attr "range"; Out ") {"]
        [Out "System.out.println("; Attr "value"; Out ");"]
        [Out "var "; Attr "name"; Out " = "; Attr "value"; Out ";"]
  | CSharp =>
      curlyRows
        [Out "public static object "; Attr "name"; Out "("; Attr "params"; Out ") {"]
        [Out "public class "; Attr "name"; Out " {"]
        [Out "foreach (var "; Attr "variable"; Out " in "; Attr "range"; Out ") {"]
        [Out "Console.WriteLine("; Attr "value"; Out ");"]
        [Out "var "; Attr "name"; Out " = "; Attr "value"; Out ";"]
  | Cpp =>
      curlyRows
        [Out "auto "; Attr "name"; Out "("; Attr "params"; Out ") {"]
        [Out "class "; Attr "name"; Out " {"]
        [Out "for (auto "; Attr "variable"; Out " : "; Attr "range"; Out ") {"]
        [Out "std::cout << "; Attr "value"; Out " << std::endl;"]
        [Out "auto "; Attr "name"; Out " = "; Attr "value"; Out ";"]
  | Go =>
      [ (Comment, [Out "//"; Attr "comment"]);
        (ClassDecl, [Out "type "; Attr "name"; Out " struct {"]);
        (FunctionDecl, [Out "func "; Attr "name"; Out "("; Attr "params"; Out ") {"]);
        (For, [Out "for _, "; Attr "variable"; Out " := range "; Attr "range"; Out " {"]);
        (While, [Out "for "; Attr "condition"; Out " {"]);
        (If, [Out "if "; Attr "condition"; Out " {"]);
        (Return, [Out "return "; Attr "value"]);
        (Print, [Out "fmt.Println("; Attr "value"; Out ")"]);
        (VarDecl, [Attr "name"; Out " := "; Attr "value"]);
        (Assignment, [Attr "name"; Out " = "; Attr "value"]) ]
  end.

Definition ruleTables : RuleTables :=
  mkTables
    (fun lang => map patternOf (rows lang))
    (fun lang k => templateOf (rows lang) k)
    (fun lang => match lang with Python => Indented | _ => Braced end)
    (fun lang => match lang with Python => "#" | _ => "//" end)
    (fun lang => match lang with Python | Go => false | _ => true end)
    (fun lang =>
       match lang with
       | Python => ["if "; "for "; "while "; " and "; " or "]
       | _ => ["if "; "for "; "while "; "&&"; "||"]
       end).

Definition thresholds : Thresholds := mkThresholds 80 10 3.

(** *** Vocabulary of the properties *)

(** A valid source text is a non-empty string. *)
Definition validInput (v : JsVal) : bool :=
  match v with
  | JStr s => negb (String.eqb s "")
  | _ => false
  end.



(** The inputs of the scenarios of section 8. *)
Definition addSource : string := "def add(a, b):" ++ nl ++ "    return a + b".

End Engine.

(* ===================================================================== *)
(** ** Sample collaborators *)
(* ===================================================================== *)

Module Sample.
Import Js.

(** An engine that converts everything to one line and finds nothing. *)
Definition convertCode (_ _ _ : JsVal) : Outcome Routes.EngineResult :=
  Returned (Routes.mkResult true JNull (JStr "pass") JUndefined ["Return: 1 translated"]).

Definition analyzeSyntax (_ _ : JsVal) : Outcome Routes.SyntaxAnalysis :=
  Returned (Routes.mkSyntax [] [JStr "no block"] []).

Definition fixSyntaxErrors (c _ : JsVal) : Outcome Routes.FixResult :=
  Returned (Routes.mkFix c []).

Definition generateQualityMetrics (_ _ : JsVal) : Outcome Routes.QualityMetrics :=
  Returned (Routes.mkMetrics (JNum 1) (JNum 0) (JNum 0) (JNum 1) (JStr "Good")).

(** A Supabase that stores every entry as row 7, and one that is not
    configured. *)
Definition storing : Routes.Supabase :=
  Routes.mkSupabase true
    (fun _ _ => Routes.Resolved (Some [Routes.mkRow (JNum 7)]) None).

Definition unconfigured : Routes.Supabase :=
  Routes.mkSupabase false (fun _ _ => Routes.Rejected (mkError "no client")).

Definition request : Routes.Body :=
  Routes.mkBody (JStr "Python") (JStr "Go") (JStr "Python") (JStr "return") JUndefined.

(** A remote model that is down. *)
Definition remoteDown (_ _ _ : string) : Outcome string :=
  Threw (mkError "fetch failed").

End Sample.

(* ===================================================================== *)
(** ** The other endpoints ([src/server/routes/convert.js]) *)
(* ===================================================================== *)

Module Endpoints.
Import Js JsNotations Routes.

(** What [.select('*').order(...).limit(50)] on the history table does:
    it resolves to [{ data, error }] or it rejects. *)
Inductive SelectOutcome : Type :=
| Selected (data : option (list Row)) (error : option JsError)
| SelectRejected (e : JsError).

(** The body of the [services] object of [/health]. *)
Record Services : Type := mkServices {
  gemini : bool;
  supabase : bool;
  transformer : bool;
  analyzer : bool
}.

(** What one of the endpoints sends: [res.status(n).json({ error })], or
    [res.json] of the object of the endpoint. *)
Inductive Reply : Type :=
| ErrorReply (status : nat) (error : JsVal)
| AnalysisReply (analysis : JsVal)
| ExplanationReply (explanation : JsVal)
| SuggestionsReply (suggestions : JsVal)
| HistoryReply (items : list Row) (message : option string)
| HealthReply (status : string) (services : Services).

Section Handlers.

Variable trim : string -> string.
Variable remote : string -> string -> string -> Outcome string.
Variable geminiEnv : option string.
Variable tableEnv : option string.
Variable analyzeSyntax : JsVal -> JsVal -> Outcome SyntaxAnalysis.
Variable generateQualityMetrics : JsVal -> JsVal -> Outcome QualityMetrics.

(** The [try]/[catch] of a handler: an error becomes a 500 with its
    message. *)
Definition guarded (body : Outcome Reply) : Reply :=
  match body with
  | Returned r => r
  | Threw e => ErrorReply 500 (JStr (message e))
  end.

(** Whether a handler takes its AI branch:
    [useAI && geminiService.isConfigured()], with [useAI = false] for an
    absent field. *)
Definition aiBranch (body : Body) : bool :=
  truthy (withDefault (JBool false) (useAI body))
  && Gemini.isConfigured (geminiService geminiEnv).

Definition missingFields (body : Body) : bool :=
  negb (truthy (language body)) || negb (truthy (inputCode body)).

Definition required : Reply := ErrorReply 400 (JStr "language, inputCode required").

(** The lines of the rule-based report of [/analyze]: template literals
    on the fields of the metrics and on every finding, each of which
    throws if the value has no string conversion. *)
Definition reportLines (q : QualityMetrics) (a : SyntaxAnalysis)
  : Outcome (list string) :=
  l <- interpolate (linesOfCode q) ;;
  f <- interpolate (functions q) ;;
  c <- interpolate (classes q) ;;
  x <- interpolate (complexity q) ;;
  r <- interpolate (readability q) ;;
  es <- mapM (fun e => t <- interpolate e ;; Returned ("❌ Error: " ++ t)) (errors a) ;;
  ws <- mapM (fun w => t <- interpolate w ;; Returned ("⚠️ Warning: " ++ t)) (warnings a) ;;
  ss <- mapM (fun s => t <- interpolate s ;; Returned ("💡 Suggestion: " ++ t))
             (suggestions a) ;;
  Returned ([ "📊 Code Analysis Report";
              "📏 Lines of code: " ++ l;
              "🔧 Functions: " ++ f;
              "🏗️ Classes: " ++ c;
              "📈 Complexity: " ++ x;
              "📖 Readability: " ++ r ]
            +++ es +++ ws +++ ss).

(** [router.post('/analyze', ...)] *)
Definition postAnalyze (body : Body) : Reply :=
  if missingFields body then required
  else guarded
    (if aiBranch body
     then
       aiResult <- Methods.analyzeCodeQuality trim remote (geminiService geminiEnv)
                     (inputCode body) (language body) ;;
       Returned (AnalysisReply (JStr (Gemini.text aiResult)))
     else
       syntaxAnalysis <- analyzeSyntax (inputCode body) (language body) ;;
       qualityMetrics <- generateQualityMetrics (inputCode body) (language body) ;;
       lines <- reportLines qualityMetrics syntaxAnalysis ;;
       Returned (AnalysisReply (JStr (String.concat nl lines)))).

(** [router.post('/explain', ...)] *)
Definition postExplain (body : Body) : Reply :=
  if missingFields body then required
  else guarded
    (if aiBranch body
     then
       result <- Methods.generateCodeExplanation trim remote (geminiService geminiEnv)
                   (inputCode body) (language body) ;;
       Returned (ExplanationReply (JStr (Gemini.text result)))
     else
       Returned (ExplanationReply
                   (JStr "AI explanation not available. Please configure Gemini API key."))).

(** [router.post('/suggest', ...)] *)
Definition postSuggest (body : Body) : Reply :=
  if missingFields body then required
  else guarded
    (if aiBranch body
     then
       result <- Methods.suggestImprovements trim remote (geminiService geminiEnv)
                   (inputCode body) (language body) ;;
       Returned (SuggestionsReply (JStr (Gemini.text result)))
     else
       Returned (SuggestionsReply
                   (JStr "AI suggestions not available. Please configure Gemini API key."))).

(** [router.get('/history', ...)]; [select] is the query on the table
    with its limit.  A rejection and an [error] both end in the [catch],
    which answers with one fixed text; [data || []] is [data] unless it
    is [null]. *)
Definition getHistory (sb : Supabase) (select : string -> nat -> SelectOutcome) : Reply :=
  if negb (isSupabaseConfigured sb)
  then HistoryReply [] (Some "Supabase not configured")
  else
    match select (TABLE tableEnv) 50 with
    | SelectRejected _ | Selected _ (Some _) =>
        ErrorReply 500 (JStr "Failed to fetch history")
    | Selected data None =>
        HistoryReply (match data with Some rows => rows | None => [] end) None
    end.

(** [router.get('/health', ...)]; [!!codeTransformer] and
    [!!codeAnalyzer] are true of the two objects. *)
Definition getHealth (sb : Supabase) : Reply :=
  HealthReply "healthy"
    (mkServices (Gemini.isConfigured (geminiService geminiEnv))
                (isSupabaseConfigured sb) true true).

End Handlers.

(** *** Vocabulary of the properties *)

Definition replyStatus (r : Reply) : nat :=
  match r with
  | ErrorReply st _ => st
  | _ => 200
  end.

(** The code that a call of an AI method is about. *)
Definition callCode (c : Gemini.Call) : string :=
  match c with
  | Gemini.ConvertCodeWithAI sc _ _ => sc
  | Gemini.FixCodeWithAI c _ | Gemini.AnalyzeCodeQuality c _
  | Gemini.GenerateCodeExplanation c _ | Gemini.SuggestImprovements c _ => c
  end.

(** Text in which no markdown fence starts. *)
Definition fenceFree (s : string) : bool := negb (Engine.contains Gemini.fence s).

(** Text that starts with two backticks. *)
Definition lead2 (s : string) : bool :=
  match s with
  | String a (String b _) => Ascii.eqb a Gemini.BT && Ascii.eqb b Gemini.BT
  | _ => false
  end.

(** The first of the two replacements of [cleanCode]. *)
Definition stripFences (text : string) : string :=
  Gemini.replaceFence (fun r => Gemini.dropLF (Gemini.dropWord r))
                      (S (String.length text)) text.

Definition convertMissingFields (body : Body) : bool :=
  negb (truthy (sourceLang body)) || negb (truthy (targetLang body))
  || negb (truthy (inputCode body)).

(** A response that is not a rejection of the request: an error with
    status 500, or a result with status 200. *)
Definition answered (r : Response) : Prop :=
  (exists e, r = mkResponse 500 (ErrorPayload e))
  \/ (exists b, r = mkResponse 200 (ResultPayload b)).


(** The model that [initializeClient] asks for. *)
Definition modelName : string := "gemini-1.5-flash".

(** Two runs of the analyzer that agree on everything but the [errors]
    they list. *)
Definition sameAdvice (a b : Outcome SyntaxAnalysis) : Prop :=
  match a, b with
  | Returned x, Returned y =>
      warnings x = warnings y /\ suggestions x = suggestions y
  | Threw e, Threw e' => e = e'
  | _, _ => False
  end.


(** An analyzer that lists one error where [Sample.analyzeSyntax] lists
    none, and one that lists another. *)
Definition strictAnalyzer (_ _ : JsVal) : Outcome SyntaxAnalysis :=
  Returned (mkSyntax [JStr "Unclosed ("] [JStr "no block"] []).


(** A remote model that answers with fenced code, and one that answers
    with other code. *)
Definition remoteFenced (_ _ _ : string) : Outcome string :=
  Returned ("```go" ++ nl ++ "return" ++ nl ++ "```").

Definition remotePlain (_ _ _ : string) : Outcome string :=
  Returned "panic()".

Definition aiRequest : Body :=
  mkBody (JStr "Python") (JStr "Go") (JStr "Python") (JStr "return") (JBool true).

(** Whether the values that the prompt of [/convert] interpolates all
    have a string conversion, and the same for the other endpoints. *)
Definition convertPrintable (body : Body) : bool :=
  printable (sourceLang body) && printable (targetLang body)
  && printable (inputCode body).

Definition requestPrintable (body : Body) : bool :=
  printable (language body) && printable (inputCode body).

(** Whether the values that the report of [/analyze] interpolates all
    have a string conversion. *)
Definition reportPrintable (q : QualityMetrics) (a : SyntaxAnalysis) : bool :=
  forallb printable
    [linesOfCode q; functions q; classes q; complexity q; readability q]
  && forallb printable (errors a)
  && forallb printable (warnings a)
  && forallb printable (suggestions a).

(** A request for AI whose [inputCode] is the parsed JSON
    [{"toString": 1}]. *)
Definition opaqueRequest : Body :=
  mkBody (JStr "Python") (JStr "Go") (JStr "Python") JUnprintable (JBool true).

End Endpoints.

(* ===================================================================== *)
(** ** Properties of the Gemini service *)
(* ===================================================================== *)

Module GeminiFacts.
Import Js Gemini.

(** *** The fuel of [replaceFence] is enough *)

Lemma dropWord_shorter (s : string) : String.length (dropWord s) <= String.length s.
Proof.
  induction s as [|c s IH]; cbn [dropWord]; [reflexivity|].
  destruct (isWordChar c); cbn [String.length]; lia.
Qed.

Lemma dropLF_shorter (s : string) : String.length (dropLF s) <= String.length s.
Proof.
  destruct s as [|c s]; cbn [dropLF]; [reflexivity|].
  destruct (Ascii.eqb c LF); cbn [String.length]; lia.
Qed.

Lemma replaceFence_step (tail : string -> string) (fuel : nat) (s : string) :
  replaceFence tail (S fuel) s =
  match s with
  | String a (String b (String c rest)) =>
      if Ascii.eqb a BT && Ascii.eqb b BT && Ascii.eqb c BT
      then replaceFence tail fuel (tail rest)
      else String a (replaceFence tail fuel (String b (String c rest)))
  | _ => s
  end.
Proof. reflexivity. Qed.

(** With a [tail] that does not lengthen its argument, a scan that has
    more fuel than the text is long gives the same result with any
    larger fuel: the scan ends before the fuel does. *)
Lemma replaceFence_fuel (tail : string -> string)
    (Htail : forall r, String.length (tail r) <= String.length r) (fuel : nat) :
  forall s, String.length s < fuel ->
            replaceFence tail (S fuel) s = replaceFence tail fuel s.
Proof.
  induction fuel as [|fuel IH]; intros s Hs; [lia|].
  rewrite (replaceFence_step tail (S fuel) s), (replaceFence_step tail fuel s).
  destruct s as [|a [|b [|c rest]]]; try reflexivity.
  cbn [String.length] in Hs.
  destruct (Ascii.eqb a BT && Ascii.eqb b BT && Ascii.eqb c BT).
  - apply IH. specialize (Htail rest). lia.
  - f_equal. apply IH. cbn [String.length]. lia.
Qed.

Lemma cleanFences_fuel (text : string) (extra : nat) :
  let strip := fun r => dropLF (dropWord r) in
  replaceFence strip (S (String.length text) + extra) text
  = replaceFence strip (S (String.length text)) text.
Proof.
  cbn zeta. induction extra as [|extra IH]; [now rewrite Nat.add_0_r|].
  rewrite Nat.add_succ_r, replaceFence_fuel; [exact IH| |lia].
  intros r. pose proof (dropLF_shorter (dropWord r)). pose proof (dropWord_shorter r).
  lia.
Qed.

Section Facts.
Variable trim : string -> string.
Variable remote : string -> string -> string -> Outcome string.

Lemma requireClient_configured (this : GeminiService) :
  requireClient this =
  match genAI this, model this with
  | Some _, Some m => Returned m
  | _, _ => Threw (mkError "Gemini API key not configured")
  end.
Proof. reflexivity. Qed.

(** Every method is the guard followed by one guarded call of the remote
    model on the prompt of the method. *)
Lemma invoke_shape (this : GeminiService) (c : Call) :
  invoke trim remote this c =
  bind (requireClient this)
       (fun m =>
          match generateContent remote m (promptOf c) with
          | Returned _ => Returned (mkStatus true None)
          | Threw e => Returned (mkStatus false (Some (message e)))
          end).
Proof.
  destruct c; cbn [invoke promptOf];
    unfold convertCodeWithAI, fixCodeWithAI, analyzeCodeQuality,
      generateCodeExplanation, suggestImprovements, textMethod;
    destruct (requireClient this) as [m|e]; cbn [bind mapOutcome]; try reflexivity;
    destruct (generateContent remote m _); reflexivity.
Qed.

Lemma isConfigured_new (env : option string) :
  isConfigured (newGeminiService env) =
  match env with
  | Some key => negb (String.eqb key "")
  | None => false
  end.
Proof.
  destruct env as [key|]; [|reflexivity].
  unfold newGeminiService, initializeClient. cbn [truthy].
  destruct (String.eqb key ""); reflexivity.
Qed.

End Facts.

(** *** The methods on the values of a request *)

(** A method called with values is its guard, then the conversion of the
    values to strings, then the method on those strings. *)
Lemma invoke_on_values
    (trim : string -> string) (remote : string -> string -> string -> Outcome string)
    (this : GeminiService) (c : Methods.Invocation) :
  Methods.invoke trim remote this c =
  bind (requireClient this)
       (fun _ =>
          if forallb printable (Methods.arguments c)
          then invoke trim remote this (Methods.asCall c)
          else Threw typeError).
Proof.
  destruct c as [sc sl tl|sc l|sc l|sc l|sc l];
    cbn [Methods.invoke Methods.arguments Methods.asCall invoke forallb];
    unfold Methods.convertCodeWithAI, Methods.fixCodeWithAI, Methods.analyzeCodeQuality,
      Methods.generateCodeExplanation, Methods.suggestImprovements, interpolate;
    destruct (requireClient this) as [m|e]; cbn [bind mapOutcome]; try reflexivity.
  - destruct (printable sl), (printable tl), (printable sc); reflexivity.
  - destruct (printable l), (printable sc); reflexivity.
  - destruct (printable l), (printable sc); reflexivity.
  - destruct (printable l), (printable sc); reflexivity.
  - destruct (printable l), (printable sc); reflexivity.
Qed.

(** A configured service throws when it is asked to convert the parsed
    JSON [{"toString": 1}]: the claim that a method throws only when the
    service is not configured fails there. *)
Lemma configured_method_throws_on_opaque_code :
  let this := newGeminiService (Some "k") in
  let call := Methods.InvokeConvert JUnprintable (JStr "Python") (JStr "Go") in
  isConfigured this = true
  /\ Methods.invoke (fun s => s) Endpoints.remotePlain this call = Threw typeError
  /\ ~ (throws (Methods.invoke (fun s => s) Endpoints.remotePlain this call) = true
        <-> isConfigured this = false).
Proof.
  cbn zeta. split; [reflexivity|]. split; [reflexivity|].
  intros [H _]. specialize (H eq_refl). discriminate H.
Qed.

(** C9, amended.  Each of the five AI methods of [GeminiService] throws
    exactly when the service is not configured or one of the values
    that its prompt interpolates has no string conversion; a service is
    not configured exactly when [GEMINI_API_KEY] was unset or empty at
    construction.  The guard comes first, so an unconfigured service
    throws its own error whatever the arguments; on a configured service
    an argument without a string conversion throws a [TypeError] before
    the [try] is entered.  Once the prompt is built, a failure of the
    model call is caught: the call returns a value with
    [success = false] and the message of the error; a call that goes
    through returns [success = true]. *)
Theorem ai_methods_throw_iff_unconfigured_or_unprintable
    (trim : string -> string) (remote : string -> string -> string -> Outcome string)
    (env : option string) (this : GeminiService) (c : Methods.Invocation) :
  (throws (Methods.invoke trim remote this c) = true
   <-> isConfigured this = false \/ forallb printable (Methods.arguments c) = false)
  /\ (isConfigured (newGeminiService env) = false <-> (env = None \/ env = Some ""))
  /\ match genAI this, model this with
     | Some _, Some m =>
         Methods.invoke trim remote this c =
         if forallb printable (Methods.arguments c)
         then match generateContent remote m (promptOf (Methods.asCall c)) with
              | Returned _ => Returned (mkStatus true None)
              | Threw e => Returned (mkStatus false (Some (message e)))
              end
         else Threw typeError
     | _, _ =>
         Methods.invoke trim remote this c = Threw (mkError "Gemini API key not configured")
     end.
Proof.
  rewrite invoke_on_values, invoke_shape, isConfigured_new.
  unfold requireClient, isConfigured.
  repeat split.
  - destruct (genAI this), (model this) as [m|]; cbn [bind throws]; auto.
    destruct (forallb printable (Methods.arguments c)); [|auto].
    destruct (generateContent remote m _); discriminate.
  - destruct (genAI this), (model this) as [m|]; cbn [bind throws]; auto.
    intros [H|H]; [discriminate|]. now rewrite H.
  - destruct env as [key|]; [|now left].
    destruct (String.eqb_spec key ""); [subst; now right | discriminate].
  - intros [->| ->]; reflexivity.
  - destruct (genAI this), (model this); reflexivity.
Qed.

End GeminiFacts.

(* ===================================================================== *)
(** ** Properties of the routes *)
(* ===================================================================== *)

Module RoutesFacts.
Import Js Routes.

Lemma responseId_withoutId (r : Response) : responseId (withoutId r) = JUndefined.
Proof. destruct r as [st [e|b]]; reflexivity. Qed.

Section Facts.
Variable trim : string -> string.
Variable remote : string -> string -> string -> Outcome string.
Variable geminiEnv : option string.
Variable tableEnv : option string.
Variable convertCode : JsVal -> JsVal -> JsVal -> Outcome EngineResult.
Variable analyzeSyntax : JsVal -> JsVal -> Outcome SyntaxAnalysis.
Variable fixSyntaxErrors : JsVal -> JsVal -> Outcome FixResult.
Variable generateQualityMetrics : JsVal -> JsVal -> Outcome QualityMetrics.

(** [saveHistory] returns; it never throws. *)
Lemma saveHistory_returns (sb : Supabase) (e : HistoryEntry) :
  exists s, saveHistory tableEnv sb e = Returned s.
Proof.
  unfold saveHistory.
  destruct (isSupabaseConfigured sb); cbn [negb]; [|now eexists].
  destruct (insert sb _ _) as [[[|r rows]|] [err|]|err]; cbn [tryCatch]; now eexists.
Qed.

Lemma saveHistory_failure (sb : Supabase) (e : HistoryEntry) :
  persistenceFails tableEnv sb (rowOf e) = true ->
  saveHistory tableEnv sb e = Returned SavedNull.
Proof.
  unfold persistenceFails, saveHistory.
  destruct (isSupabaseConfigured sb); cbn [negb orb]; [|reflexivity].
  destruct (insert sb _ _) as [[[|r rows]|] [err|]|err]; cbn [tryCatch];
    try reflexivity; discriminate.
Qed.

Local Abbreviation convert :=
  (postConvert trim remote geminiEnv tableEnv convertCode analyzeSyntax
     generateQualityMetrics).
Local Abbreviation fix_ :=
  (postFix trim remote geminiEnv tableEnv analyzeSyntax fixSyntaxErrors
     generateQualityMetrics).

(** Two Supabase collaborators yield the same response up to [id]. *)
Lemma postConvert_withoutId (sb1 sb2 : Supabase) (body : Body) :
  withoutId (convert sb1 body) = withoutId (convert sb2 body).
Proof.
  unfold postConvert.
  destruct (negb _ || negb _ || negb _); [reflexivity|].
  match goal with
  | |- context [bind ?m _] => destruct m as [result|err]
  end; cbn [bind guarded]; [|reflexivity].
  destruct (success result); cbn [negb]; [|reflexivity].
  destruct (analyzeSyntax _ _) as [sa|err]; cbn [bind guarded]; [|reflexivity].
  destruct (generateQualityMetrics _ _) as [qm|err]; cbn [bind guarded]; [|reflexivity].
  destruct (metricLines qm) as [metrics|err]; cbn [bind guarded]; [|reflexivity].
  destruct (mapM warn _) as [warned|err]; cbn [bind guarded]; [|reflexivity].
  destruct (mapM hint _) as [hinted|err]; cbn [bind guarded]; [|reflexivity].
  match goal with
  | |- context [saveHistory tableEnv sb1 ?e] =>
      destruct (saveHistory_returns sb1 e) as [s1 ->];
      destruct (saveHistory_returns sb2 e) as [s2 ->]
  end.
  reflexivity.
Qed.

Lemma postFix_withoutId (sb1 sb2 : Supabase) (body : Body) :
  withoutId (fix_ sb1 body) = withoutId (fix_ sb2 body).
Proof.
  unfold postFix.
  destruct (negb _ || negb _); [reflexivity|].
  match goal with
  | |- context [guarded (bind ?m _)] => destruct m as [result|err]
  end; cbn [bind guarded]; [|reflexivity].
  destruct (success result); cbn [negb]; [|reflexivity].
  destruct (generateQualityMetrics _ _) as [qm|err]; cbn [bind guarded]; [|reflexivity].
  destruct (metricLines qm) as [metrics|err]; cbn [bind guarded]; [|reflexivity].
  match goal with
  | |- context [saveHistory tableEnv sb1 ?e] =>
      destruct (saveHistory_returns sb1 e) as [s1 ->];
      destruct (saveHistory_returns sb2 e) as [s2 ->]
  end.
  reflexivity.
Qed.

(** With a failing Supabase the response has no [id]. *)
Lemma postConvert_failing (sb : Supabase) (body : Body) :
  (forall e, persistenceFails tableEnv sb e = true) ->
  withoutId (convert sb body) = convert sb body.
Proof.
  intros Hfail. unfold postConvert.
  destruct (negb _ || negb _ || negb _); [reflexivity|].
  match goal with
  | |- context [bind ?m _] => destruct m as [result|err]
  end; cbn [bind guarded]; [|reflexivity].
  destruct (success result); cbn [negb]; [|reflexivity].
  destruct (analyzeSyntax _ _) as [sa|err]; cbn [bind guarded]; [|reflexivity].
  destruct (generateQualityMetrics _ _) as [qm|err]; cbn [bind guarded]; [|reflexivity].
  destruct (metricLines qm) as [metrics|err]; cbn [bind guarded]; [|reflexivity].
  destruct (mapM warn _) as [warned|err]; cbn [bind guarded]; [|reflexivity].
  destruct (mapM hint _) as [hinted|err]; cbn [bind guarded]; [|reflexivity].
  rewrite saveHistory_failure by apply Hfail.
  reflexivity.
Qed.

Lemma postFix_failing (sb : Supabase) (body : Body) :
  (forall e, persistenceFails tableEnv sb e = true) ->
  withoutId (fix_ sb body) = fix_ sb body.
Proof.
  intros Hfail. unfold postFix.
  destruct (negb _ || negb _); [reflexivity|].
  match goal with
  | |- context [guarded (bind ?m _)] => destruct m as [result|err]
  end; cbn [bind guarded]; [|reflexivity].
  destruct (success result); cbn [negb]; [|reflexivity].
  destruct (generateQualityMetrics _ _) as [qm|err]; cbn [bind guarded]; [|reflexivity].
  destruct (metricLines qm) as [metrics|err]; cbn [bind guarded]; [|reflexivity].
  rewrite saveHistory_failure by apply Hfail.
  reflexivity.
Qed.

End Facts.

(** C10.  [saveHistory] never throws, and returns [null] when Supabase is
    not configured or the insert fails.  So a [/convert] or [/fix]
    request gets the same response whatever persistence does, up to the
    [id] field: the response under a failing persistence [down] is the
    response under any persistence [sb] with [id] undefined, and two
    persistences differ in [id] at most. *)
Theorem history_never_affects_result
    (trim : string -> string) (remote : string -> string -> string -> Outcome string)
    (geminiEnv tableEnv : option string)
    (convertCode : JsVal -> JsVal -> JsVal -> Outcome EngineResult)
    (analyzeSyntax : JsVal -> JsVal -> Outcome SyntaxAnalysis)
    (fixSyntaxErrors : JsVal -> JsVal -> Outcome FixResult)
    (generateQualityMetrics : JsVal -> JsVal -> Outcome QualityMetrics)
    (sb sb' down : Supabase) (body : Body)
    (Hdown : forall e, persistenceFails tableEnv down e = true) :
  let convert := postConvert trim remote geminiEnv tableEnv convertCode analyzeSyntax
                   generateQualityMetrics in
  let fix_ := postFix trim remote geminiEnv tableEnv analyzeSyntax fixSyntaxErrors
                generateQualityMetrics in
  (forall e, throws (saveHistory tableEnv sb e) = false)
  /\ (forall e, saveHistory tableEnv down e = Returned SavedNull)
  /\ convert down body = withoutId (convert sb body)
  /\ fix_ down body = withoutId (fix_ sb body)
  /\ responseId (convert down body) = JUndefined
  /\ responseId (fix_ down body) = JUndefined
  /\ withoutId (convert sb body) = withoutId (convert sb' body)
  /\ withoutId (fix_ sb body) = withoutId (fix_ sb' body).
Proof.
  intros convert fix_.
  assert (Hc : convert down body = withoutId (convert sb body)).
  { unfold convert. rewrite <- (postConvert_failing _ _ _ _ _ _ _ down body Hdown).
    apply postConvert_withoutId. }
  assert (Hf : fix_ down body = withoutId (fix_ sb body)).
  { unfold fix_. rewrite <- (postFix_failing _ _ _ _ _ _ _ down body Hdown).
    apply postFix_withoutId. }
  repeat split.
  - intros e. destruct (saveHistory_returns tableEnv sb e) as [s ->]. reflexivity.
  - intros e. apply saveHistory_failure, Hdown.
  - exact Hc.
  - exact Hf.
  - rewrite Hc. apply responseId_withoutId.
  - rewrite Hf. apply responseId_withoutId.
  - apply postConvert_withoutId.
  - apply postFix_withoutId.
Qed.

(** The theorem at work: a conversion saved as row 7 against the same
    conversion with Supabase not configured. *)
Lemma history_never_affects_result_witness :
  let convert := postConvert (fun s => s) Sample.remoteDown None None
                   Sample.convertCode Sample.analyzeSyntax
                   Sample.generateQualityMetrics in
  responseId (convert Sample.storing Sample.request) = JNum 7
  /\ convert Sample.unconfigured Sample.request
     = withoutId (convert Sample.storing Sample.request).
Proof.
  split; [reflexivity|].
  apply (history_never_affects_result (fun s => s) Sample.remoteDown None None
           Sample.convertCode Sample.analyzeSyntax Sample.fixSyntaxErrors
           Sample.generateQualityMetrics Sample.storing Sample.storing
           Sample.unconfigured Sample.request).
  intros e. reflexivity.
Defined.

End RoutesFacts.

(* ===================================================================== *)
(** ** Properties of the engine *)
(* ===================================================================== *)

Module EngineFacts.
Import Js JsNotations Engine.

(** *** Extraction and conversion never raise *)

Lemma extract_returns (rt : RuleTables) (text : string) (lang : Language) :
  exists kids,
    extract rt text lang = Returned (programNode kids (List.length (splitLines text))).
Proof.
  unfold extract, extractStructured.
  destruct (depthNodes rt lang 1 0 (splitLines text)) as [items|e];
    cbn [bind tryCatch]; eexists; reflexivity.
Qed.

(** A conversion returns a result, whatever it is given. *)
Lemma convertCode_returns (rt : RuleTables) (sourceText sourceLang targetLang : JsVal) :
  exists r, convertCode rt sourceText sourceLang targetLang = Returned r.
Proof.
  unfold convertCode.
  destruct (languageOfTag sourceLang) as [sl|], (languageOfTag targetLang) as [tl|];
    try (eexists; reflexivity).
  destruct sourceText as [| |b|n|text|o|]; try (eexists; reflexivity).
  destruct (String.eqb text ""); [eexists; reflexivity|].
  destruct (extract_returns rt text sl) as [kids ->]. eexists; reflexivity.
Qed.

Lemma isSupported_spec (tag : JsVal) :
  isSupported tag = true <-> exists l, languageOfTag tag = Some l.
Proof.
  unfold isSupported. destruct (languageOfTag tag) as [l|]; split;
    try discriminate; eauto.
  intros [l H]. discriminate.
Qed.

(** C1.  [convertCode] returns on every call, and its result has
    [success = false] exactly when the source text is not a non-empty
    text or one of the two language tags is outside the supported set of
    six; the error says which.  With a non-empty text and two supported
    languages the conversion succeeds whatever the text holds.  The call
    [convertCode("", "Python", "Go")] fails with [InvalidInput]. *)
Theorem convert_fails_only_on_invalid_request
    (rt : RuleTables) (sourceText sourceLang targetLang : JsVal) :
  (exists r,
      convertCode rt sourceText sourceLang targetLang = Returned r
      /\ (success r = false <->
          (validInput sourceText = false \/ isSupported sourceLang = false
           \/ isSupported targetLang = false))
      /\ error r =
         (if negb (isSupported sourceLang) then Some (UnsupportedLanguage sourceLang)
          else if negb (isSupported targetLang) then Some (UnsupportedLanguage targetLang)
          else if negb (validInput sourceText) then Some InvalidInput
          else None))
  /\ convertCode rt (JStr "") (JStr "Python") (JStr "Go") = Returned (failed InvalidInput).
Proof.
  split; [|reflexivity].
  unfold convertCode, isSupported.
  destruct (languageOfTag sourceLang) as [sl|], (languageOfTag targetLang) as [tl|];
    cbn [negb];
    try (eexists; split; [reflexivity|]; cbn [failed success error];
         split; [split; auto|reflexivity]).
  destruct sourceText as [| |b|n|text|o|]; cbn [validInput];
    try (eexists; split; [reflexivity|]; cbn [failed success error negb];
         split; [split; auto|reflexivity]).
  destruct (String.eqb text ""); cbn [negb].
  - eexists; split; [reflexivity|]. cbn [failed success error].
    split; [split; auto|reflexivity].
  - destruct (extract_returns rt text sl) as [kids ->]. cbn [bind].
    eexists; split; [reflexivity|]. cbn [success error].
    split; [|reflexivity].
    split; [discriminate|]. intros [H|[H|H]]; discriminate.
Qed.

(** *** The scenarios *)

(** C6.  Converting [def add(a, b): return a + b] from Python to
    JavaScript succeeds; the output has the header [function add(a, b) {]
    and the statement [return a + b;]; the metrics count one function,
    in the source as Python and in the output as JavaScript. *)
Theorem scenario_python_add_to_javascript :
  exists r,
    convertCode ruleTables (JStr addSource) (JStr "Python") (JStr "JavaScript")
    = Returned r
    /\ success r = true
    /\ outputCode r = "function add(a, b) {" ++ nl ++ "    return a + b;" ++ nl ++ "}"
    /\ contains "function add(a, b) {" (outputCode r) = true
    /\ contains "return a + b;" (outputCode r) = true
    /\ functions (generateQualityMetrics thresholds ruleTables addSource Python) = 1
    /\ functions (generateQualityMetrics thresholds ruleTables (outputCode r) JavaScript)
       = 1.
Proof.
  eexists. split; [vm_compute; reflexivity|].
  repeat split; vm_compute; reflexivity.
Qed.

(** *** A line with one string left open *)

Lemma append_empty (s : string) : s ++ "" = s.
Proof. induction s as [|c s IH]; cbn; [reflexivity | now rewrite IH]. Qed.





End EngineFacts.

(* ===================================================================== *)
(** ** More on the Gemini service *)
(* ===================================================================== *)

Module GeminiMore.
Import Js JsNotations Gemini Endpoints.

(** *** Substrings *)

Lemma contains_unfold (sub s : string) :
  Engine.contains sub s
  = Engine.startsWith sub s
    || match s with
       | String _ rest => Engine.contains sub rest
       | EmptyString => false
       end.
Proof. destruct s; reflexivity. Qed.

Lemma startsWith_append (sub a b : string) :
  Engine.startsWith sub a = true -> Engine.startsWith sub (a ++ b) = true.
Proof.
  unfold Engine.startsWith. revert a.
  induction sub as [|x sub IH]; intros a; [reflexivity|].
  destruct a as [|y a]; cbn [Engine.stripPrefix append]; [discriminate|].
  destruct (Ascii.eqb x y); [apply IH | discriminate].
Qed.

Lemma startsWith_self (sub b : string) : Engine.startsWith sub (sub ++ b) = true.
Proof.
  unfold Engine.startsWith. induction sub as [|x sub IH]; [reflexivity|].
  cbn [Engine.stripPrefix append]. now rewrite Ascii.eqb_refl.
Qed.

Lemma contains_here (sub b : string) : Engine.contains sub (sub ++ b) = true.
Proof. rewrite contains_unfold, startsWith_self. reflexivity. Qed.

Lemma contains_append_l (sub a b : string) :
  Engine.contains sub a = true -> Engine.contains sub (a ++ b) = true.
Proof.
  induction a as [|c a IH]; intros H.
  - rewrite contains_unfold in H. rewrite orb_false_r in H.
    rewrite contains_unfold. now rewrite (startsWith_append sub "" b H).
  - rewrite contains_unfold in H. apply orb_prop in H as [H|H].
    + rewrite contains_unfold. now rewrite (startsWith_append _ _ b H).
    + cbn [append]. rewrite contains_unfold, (IH H). apply orb_true_r.
Qed.

Lemma contains_append_r (sub a b : string) :
  Engine.contains sub b = true -> Engine.contains sub (a ++ b) = true.
Proof.
  intros H. induction a as [|c a IH]; [exact H|].
  cbn [append]. rewrite contains_unfold, IH. apply orb_true_r.
Qed.

(** *** Fences *)

Lemma fence_head (a b c : ascii) (rest : string) :
  Engine.startsWith fence (String a (String b (String c rest)))
  = Ascii.eqb a BT && Ascii.eqb b BT && Ascii.eqb c BT.
Proof.
  unfold Engine.startsWith, fence. cbn [Engine.stripPrefix]. fold BT.
  rewrite (Ascii.eqb_sym BT a), (Ascii.eqb_sym BT b), (Ascii.eqb_sym BT c).
  destruct (Ascii.eqb a BT), (Ascii.eqb b BT), (Ascii.eqb c BT); reflexivity.
Qed.

Lemma short_no_fence (s : string) :
  String.length s < 3 -> Engine.contains fence s = false.
Proof.
  destruct s as [|a [|b [|c rest]]]; cbn [String.length]; intros H; try lia;
    unfold fence, Engine.contains, Engine.startsWith; cbn [Engine.stripPrefix].
  - reflexivity.
  - destruct (Ascii.eqb _ a); reflexivity.
  - destruct (Ascii.eqb _ a), (Ascii.eqb _ b); reflexivity.
Qed.

(** A character that is not a backtick is copied by the scan. *)
Lemma head_kept (tail : string -> string) (fuel : nat) (x : ascii) (s : string) :
  Ascii.eqb x BT = false ->
  exists r, replaceFence tail fuel (String x s) = String x r.
Proof.
  intros Hx. destruct fuel as [|fuel]; [now eexists|].
  cbn [replaceFence]. destruct s as [|b [|c rest]]; try (now eexists).
  rewrite Hx. cbn [andb]. now eexists.
Qed.

(** A text that does not start with two backticks is scanned into one
    that does not either. *)
Lemma lead2_kept (tail : string -> string) (fuel : nat) (b c : ascii) (rest : string) :
  Ascii.eqb b BT && Ascii.eqb c BT = false ->
  lead2 (replaceFence tail fuel (String b (String c rest))) = false.
Proof.
  intros H. destruct (Ascii.eqb b BT) eqn:Hb.
  - cbn [andb] in H. destruct fuel as [|fuel]; [cbn; now rewrite Hb, H|].
    cbn [replaceFence]. destruct rest as [|d rest]; [cbn; now rewrite Hb, H|].
    rewrite Hb, H. cbn [andb].
    destruct (head_kept tail fuel c (String d rest) H) as [r ->].
    cbn. now rewrite Hb, H.
  - destruct (head_kept tail fuel b (String c rest) Hb) as [r ->].
    destruct r; cbn; [reflexivity | now rewrite Hb].
Qed.

Lemma startsWith_fence_lead2 (a : ascii) (r : string) :
  Engine.startsWith fence (String a r) = Ascii.eqb a BT && lead2 r.
Proof.
  destruct r as [|b [|c rest]].
  - unfold Engine.startsWith, fence. cbn [Engine.stripPrefix lead2].
    destruct (Ascii.eqb _ a); now rewrite andb_false_r.
  - unfold Engine.startsWith, fence. cbn [Engine.stripPrefix lead2].
    rewrite andb_false_r.
    destruct (Ascii.eqb _ a); [destruct (Ascii.eqb _ b)|]; reflexivity.
  - rewrite fence_head. cbn [lead2]. now rewrite andb_assoc.
Qed.

(** With fuel for the whole text, the scan leaves no fence behind: the
    text it deletes starts at a fence, and what it copies before and
    after cannot join into one. *)
Lemma replaceFence_no_fence (tail : string -> string)
    (Htail : forall r, String.length (tail r) <= String.length r) (fuel : nat) :
  forall s, String.length s < fuel ->
            Engine.contains fence (replaceFence tail fuel s) = false.
Proof.
  induction fuel as [|fuel IH]; intros s Hs; [lia|].
  rewrite GeminiFacts.replaceFence_step.
  destruct s as [|a [|b [|c rest]]]; try (apply short_no_fence; cbn; lia).
  cbn [String.length] in Hs.
  destruct (Ascii.eqb a BT && Ascii.eqb b BT && Ascii.eqb c BT) eqn:E.
  - apply IH. specialize (Htail rest). lia.
  - rewrite contains_unfold, startsWith_fence_lead2.
    rewrite IH by (cbn [String.length]; lia). rewrite orb_false_r.
    destruct (Ascii.eqb a BT); [|reflexivity]. cbn [andb] in E |- *.
    apply lead2_kept, E.
Qed.

(** A text without fences goes through the scan unchanged. *)
Lemma replaceFence_fence_free (tail : string -> string) (fuel : nat) :
  forall s, Engine.contains fence s = false -> replaceFence tail fuel s = s.
Proof.
  induction fuel as [|fuel IH]; intros s Hs; [reflexivity|].
  rewrite GeminiFacts.replaceFence_step.
  destruct s as [|a [|b [|c rest]]]; try reflexivity.
  rewrite contains_unfold in Hs. apply orb_false_elim in Hs as [Hh Ht].
  rewrite fence_head in Hh. rewrite Hh. f_equal. apply IH, Ht.
Qed.

Lemma fenceFree_spec (s : string) :
  fenceFree s = true <-> Engine.contains fence s = false.
Proof. unfold fenceFree. destruct (Engine.contains fence s); split; easy. Qed.

Lemma stripFences_fence_free (text : string) : fenceFree (stripFences text) = true.
Proof.
  apply fenceFree_spec. unfold stripFences.
  apply replaceFence_no_fence; [|lia].
  intros r. pose proof (GeminiFacts.dropLF_shorter (dropWord r)).
  pose proof (GeminiFacts.dropWord_shorter r). lia.
Qed.

Lemma cleanFences_strips_once (trim : string -> string) (text : string) :
  cleanFences trim text = trim (stripFences text).
Proof.
  unfold cleanFences. fold (stripFences text). f_equal.
  apply replaceFence_fence_free, fenceFree_spec, stripFences_fence_free.
Qed.

(** X1.  The code that [convertCodeWithAI] or [fixCodeWithAI] returns
    holds no markdown fence, whatever the model answered, given that
    trimming a text without fences leaves it without fences. *)
Theorem ai_code_has_no_fence
    (trim : string -> string) (remote : string -> string -> string -> Outcome string)
    (this : GeminiService) (sc sl tl : string) (r : CodeResult)
    (Htrim : forall u, fenceFree u = true -> fenceFree (trim u) = true)
    (Hr : convertCodeWithAI trim remote this sc sl tl = Returned r
          \/ fixCodeWithAI trim remote this sc sl = Returned r) :
  fenceFree (code r) = true.
Proof.
  assert (Hclean : forall t, fenceFree (cleanFences trim t) = true).
  { intros t. rewrite cleanFences_strips_once. apply Htrim, stripFences_fence_free. }
  unfold convertCodeWithAI, fixCodeWithAI in Hr.
  destruct (requireClient this) as [m|e]; cbn [bind] in Hr;
    [|destruct Hr; discriminate].
  destruct Hr as [Hr|Hr];
    destruct (generateContent remote m _) as [t|e]; cbn [bind tryCatch] in Hr;
    injection Hr as <-; cbn [code]; try apply Hclean; reflexivity.
Qed.

Lemma ai_code_has_no_fence_witness :
  exists r,
    convertCodeWithAI (fun s => s) remoteFenced (newGeminiService (Some "k"))
      "return" "Python" "Go" = Returned r
    /\ code r = "return" ++ nl
    /\ fenceFree (code r) = true.
Proof.
  eexists. split; [reflexivity|]. split; [reflexivity|].
  apply (ai_code_has_no_fence (fun s => s) remoteFenced (newGeminiService (Some "k"))
           "return" "Python" "Go").
  - intros u H. exact H.
  - left. reflexivity.
Defined.

(** X2.  The second replacement of [cleanCode], the one of the bare
    fence, never changes anything: after the first replacement the text
    holds no fence, so the cleaned code is the trimmed result of the
    first replacement alone. *)
Theorem second_replace_is_redundant (trim : string -> string) (text : string) :
  let once := replaceFence (fun r => dropLF (dropWord r)) (S (String.length text)) text in
  replaceFence (fun r => r) (S (String.length once)) once = once
  /\ fenceFree once = true
  /\ cleanFences trim text = trim once.
Proof.
  cbn zeta. fold (stripFences text). repeat split.
  - apply replaceFence_fence_free, fenceFree_spec, stripFences_fence_free.
  - apply stripFences_fence_free.
  - apply cleanFences_strips_once.
Qed.

(** X3.  An answer of the model that holds no fence is returned as it
    is, trimmed. *)
Theorem fence_free_text_is_only_trimmed (trim : string -> string) (text : string)
    (Hfree : fenceFree text = true) :
  cleanFences trim text = trim text.
Proof.
  apply fenceFree_spec in Hfree. unfold cleanFences.
  rewrite (replaceFence_fence_free _ _ text Hfree).
  now rewrite (replaceFence_fence_free _ _ text Hfree).
Qed.

Lemma fence_free_text_is_only_trimmed_witness :
  cleanFences (fun s => s) ("x = `a` + ``" ++ nl ++ "y") = "x = `a` + ``" ++ nl ++ "y".
Proof.
  apply (fence_free_text_is_only_trimmed (fun s => s) ("x = `a` + ``" ++ nl ++ "y")).
  reflexivity.
Defined.

(** X4.  A call of an AI method consults the remote model at one point
    only: the API key of the environment, the model [gemini-1.5-flash]
    and the prompt of the call.  Two remote models that agree there give
    the same result. *)
Theorem ai_method_asks_one_question
    (trim : string -> string)
    (remote remote' : string -> string -> string -> Outcome string)
    (env : option string) (c : Call)
    (Hsame : forall key, env = Some key ->
               remote key Endpoints.modelName (promptOf c)
               = remote' key Endpoints.modelName (promptOf c)) :
  let this := newGeminiService env in
  match c with
  | ConvertCodeWithAI sc sl tl =>
      convertCodeWithAI trim remote this sc sl tl
      = convertCodeWithAI trim remote' this sc sl tl
  | FixCodeWithAI code language =>
      fixCodeWithAI trim remote this code language
      = fixCodeWithAI trim remote' this code language
  | AnalyzeCodeQuality code language =>
      analyzeCodeQuality trim remote this code language
      = analyzeCodeQuality trim remote' this code language
  | GenerateCodeExplanation code language =>
      generateCodeExplanation trim remote this code language
      = generateCodeExplanation trim remote' this code language
  | SuggestImprovements code language =>
      suggestImprovements trim remote this code language
      = suggestImprovements trim remote' this code language
  end.
Proof.
  cbn zeta. unfold newGeminiService, initializeClient.
  destruct env as [key|]; [|destruct c; reflexivity].
  specialize (Hsame key eq_refl).
  destruct (truthy (JStr key)); [|destruct c; reflexivity].
  destruct c; cbn [promptOf] in Hsame;
    unfold convertCodeWithAI, fixCodeWithAI, analyzeCodeQuality,
      generateCodeExplanation, suggestImprovements, textMethod, requireClient,
      generateContent;
    cbn [genAI model bind owner apiKey Gemini.modelName];
    unfold Endpoints.modelName in Hsame; now rewrite Hsame.
Qed.

Lemma ai_method_asks_one_question_witness :
  convertCodeWithAI (fun s => s) remotePlain (newGeminiService (Some "k"))
    "return" "Python" "Go"
  = convertCodeWithAI (fun s => s)
      (fun key name _ => if String.eqb key "k" then Returned "panic()"
                         else Threw (mkError name))
      (newGeminiService (Some "k")) "return" "Python" "Go".
Proof.
  apply (ai_method_asks_one_question (fun s => s) remotePlain
           (fun key name _ => if String.eqb key "k" then Returned "panic()"
                              else Threw (mkError name))
           (Some "k") (ConvertCodeWithAI "return" "Python" "Go")).
  intros key H. injection H as <-. reflexivity.
Defined.

(** X5.  The prompt of every AI method carries the code it is about
    verbatim: nothing of it is escaped or cut. *)
Theorem prompts_carry_the_code_verbatim (c : Call) :
  Engine.contains (callCode c) (promptOf c) = true.
Proof.
  destruct c; cbn [callCode promptOf];
    unfold convertPrompt, fixPrompt, qualityPrompt, explainPrompt, suggestPrompt.
  all: repeat (first [ apply contains_here | apply contains_append_r ]).
Qed.

End GeminiMore.

(* ===================================================================== *)
(** ** More on the routes *)
(* ===================================================================== *)

Module RoutesMore.
Import Js JsNotations Routes Endpoints.

Lemma truthy_key (key : string) : key <> "" -> truthy (JStr key) = true.
Proof.
  intros H. cbn. destruct (String.eqb_spec key ""); [contradiction|reflexivity].
Qed.

(** The service that a non-empty key configures. *)
Lemma service_of_key (key : string) :
  key <> "" ->
  geminiService (Some key)
  = Gemini.mkService (Some (Gemini.mkGenAI key))
      (Some (Gemini.mkModel (Gemini.mkGenAI key) Endpoints.modelName)).
Proof.
  intros H. unfold geminiService, Gemini.newGeminiService, Gemini.initializeClient.
  now rewrite truthy_key.
Qed.

Lemma aiBranch_of_key (key : string) (body : Body) :
  key <> "" ->
  aiBranch (Some key) body = truthy (withDefault (JBool false) (useAI body)).
Proof.
  intros H. unfold aiBranch. rewrite service_of_key by exact H.
  cbn. apply andb_true_r.
Qed.

(** *** The three kinds of response *)

Section Shape.
Variable trim : string -> string.
Variable remote : string -> string -> string -> Outcome string.
Variable geminiEnv : option string.
Variable tableEnv : option string.
Variable convertCode : JsVal -> JsVal -> JsVal -> Outcome EngineResult.
Variable analyzeSyntax : JsVal -> JsVal -> Outcome SyntaxAnalysis.
Variable fixSyntaxErrors : JsVal -> JsVal -> Outcome FixResult.
Variable generateQualityMetrics : JsVal -> JsVal -> Outcome QualityMetrics.

Local Abbreviation convert :=
  (postConvert trim remote geminiEnv tableEnv convertCode analyzeSyntax
     generateQualityMetrics).
Local Abbreviation fix_ :=
  (postFix trim remote geminiEnv tableEnv analyzeSyntax fixSyntaxErrors
     generateQualityMetrics).

Lemma convert_shape (sb : Supabase) (body : Body) :
  (convertMissingFields body = true
   /\ convert sb body
      = mkResponse 400 (ErrorPayload (JStr "sourceLang, targetLang, inputCode required")))
  \/ (convertMissingFields body = false /\ answered (convert sb body)).
Proof.
  unfold postConvert, convertMissingFields, answered.
  destruct (negb _ || negb _ || negb _); [left; now split|right; split; [reflexivity|]].
  match goal with
  | |- context [bind ?m _] => destruct m as [result|err]
  end; cbn [bind Routes.guarded]; [|left; now eexists].
  destruct (success result); cbn [negb]; [|left; now eexists].
  destruct (analyzeSyntax _ _) as [sa|err]; cbn [bind Routes.guarded];
    [|left; now eexists].
  destruct (generateQualityMetrics _ _) as [qm|err]; cbn [bind Routes.guarded];
    [|left; now eexists].
  destruct (metricLines qm) as [metrics|err]; cbn [bind Routes.guarded];
    [|left; now eexists].
  destruct (mapM warn _) as [warned|err]; cbn [bind Routes.guarded];
    [|left; now eexists].
  destruct (mapM hint _) as [hinted|err]; cbn [bind Routes.guarded];
    [|left; now eexists].
  match goal with
  | |- context [saveHistory tableEnv sb ?e] =>
      destruct (RoutesFacts.saveHistory_returns tableEnv sb e) as [s1 ->]
  end.
  right. now eexists.
Qed.

Lemma fix_shape (sb : Supabase) (body : Body) :
  (missingFields body = true
   /\ fix_ sb body = mkResponse 400 (ErrorPayload (JStr "language, inputCode required")))
  \/ (missingFields body = false /\ answered (fix_ sb body)).
Proof.
  unfold postFix, missingFields, answered.
  destruct (negb _ || negb _); [left; now split|right; split; [reflexivity|]].
  match goal with
  | |- context [Routes.guarded (bind ?m _)] => destruct m as [result|err]
  end; cbn [bind Routes.guarded]; [|left; now eexists].
  destruct (success result); cbn [negb]; [|left; now eexists].
  destruct (generateQualityMetrics _ _) as [qm|err]; cbn [bind Routes.guarded];
    [|left; now eexists].
  destruct (metricLines qm) as [metrics|err]; cbn [bind Routes.guarded];
    [|left; now eexists].
  match goal with
  | |- context [saveHistory tableEnv sb ?e] =>
      destruct (RoutesFacts.saveHistory_returns tableEnv sb e) as [s1 ->]
  end.
  right. now eexists.
Qed.

End Shape.

Lemma classified (missing : bool) (r : Response) (msg : JsVal) :
  (missing = true /\ r = mkResponse 400 (ErrorPayload msg))
  \/ (missing = false /\ answered r) ->
  (Routes.status r = 400 <-> missing = true)
  /\ (Routes.status r = 200 <-> exists b, payload r = ResultPayload b)
  /\ (Routes.status r = 500 <-> missing = false /\ exists e, payload r = ErrorPayload e).
Proof.
  intros [[-> ->]|[-> [[e ->]|[b ->]]]]; cbn [Routes.status payload]; repeat split;
    try discriminate; try (intros [b' H]; discriminate); eauto;
    try (intros [_ [e' H]]; discriminate); try (intros [H _]; discriminate).
Qed.

(** X6.  A response of [/convert] or [/fix] has status 400 exactly when
    a required field of the request is missing or falsy, status 200
    exactly when it carries a result, and status 500 exactly when the
    request was complete and it carries an error; there is no other
    status. *)
Theorem responses_are_classified
    (trim : string -> string) (remote : string -> string -> string -> Outcome string)
    (geminiEnv tableEnv : option string)
    (convertCode : JsVal -> JsVal -> JsVal -> Outcome EngineResult)
    (analyzeSyntax : JsVal -> JsVal -> Outcome SyntaxAnalysis)
    (fixSyntaxErrors : JsVal -> JsVal -> Outcome FixResult)
    (generateQualityMetrics : JsVal -> JsVal -> Outcome QualityMetrics)
    (sb : Supabase) (body : Body) :
  let rc := postConvert trim remote geminiEnv tableEnv convertCode analyzeSyntax
              generateQualityMetrics sb body in
  let rf := postFix trim remote geminiEnv tableEnv analyzeSyntax fixSyntaxErrors
              generateQualityMetrics sb body in
  ((Routes.status rc = 400 <-> convertMissingFields body = true)
   /\ (Routes.status rc = 200 <-> exists b, payload rc = ResultPayload b)
   /\ (Routes.status rc = 500 <->
       convertMissingFields body = false /\ exists e, payload rc = ErrorPayload e))
  /\ ((Routes.status rf = 400 <-> missingFields body = true)
      /\ (Routes.status rf = 200 <-> exists b, payload rf = ResultPayload b)
      /\ (Routes.status rf = 500 <->
          missingFields body = false /\ exists e, payload rf = ErrorPayload e)).
Proof.
  cbn zeta. split.
  - eapply classified, convert_shape.
  - eapply classified, fix_shape.
Qed.

(** *** The two branches *)

Section Branches.
Variables trim trim' : string -> string.
Variables remote remote' : string -> string -> string -> Outcome string.
Variable geminiEnv : option string.
Variable tableEnv : option string.
Variable convertCode : JsVal -> JsVal -> JsVal -> Outcome EngineResult.
Variables analyzeSyntax analyzeSyntax' : JsVal -> JsVal -> Outcome SyntaxAnalysis.
Variables fixSyntaxErrors fixSyntaxErrors' : JsVal -> JsVal -> Outcome FixResult.
Variable generateQualityMetrics : JsVal -> JsVal -> Outcome QualityMetrics.

Lemma convert_rule_branch (sb : Supabase) (body : Body) :
  aiBranch geminiEnv body = false ->
  postConvert trim remote geminiEnv tableEnv convertCode analyzeSyntax
    generateQualityMetrics sb body
  = postConvert trim' remote' geminiEnv tableEnv convertCode analyzeSyntax
      generateQualityMetrics sb body.
Proof. unfold aiBranch, postConvert. cbn zeta. intros ->. reflexivity. Qed.

Lemma fix_rule_branch (sb : Supabase) (body : Body) :
  aiBranch geminiEnv body = false ->
  postFix trim remote geminiEnv tableEnv analyzeSyntax fixSyntaxErrors
    generateQualityMetrics sb body
  = postFix trim' remote' geminiEnv tableEnv analyzeSyntax fixSyntaxErrors
      generateQualityMetrics sb body.
Proof. unfold aiBranch, postFix. cbn zeta. intros ->. reflexivity. Qed.

Lemma others_rule_branch (body : Body) :
  aiBranch geminiEnv body = false ->
  postAnalyze trim remote geminiEnv analyzeSyntax generateQualityMetrics body
  = postAnalyze trim' remote' geminiEnv analyzeSyntax generateQualityMetrics body
  /\ postExplain trim remote geminiEnv body = postExplain trim' remote' geminiEnv body
  /\ postSuggest trim remote geminiEnv body = postSuggest trim' remote' geminiEnv body.
Proof.
  unfold postAnalyze, postExplain, postSuggest. intros ->. repeat split.
Qed.

Lemma fix_ai_branch (sb : Supabase) (body : Body) :
  aiBranch geminiEnv body = true ->
  postFix trim remote geminiEnv tableEnv analyzeSyntax fixSyntaxErrors
    generateQualityMetrics sb body
  = postFix trim remote geminiEnv tableEnv analyzeSyntax' fixSyntaxErrors'
      generateQualityMetrics sb body.
Proof. unfold aiBranch, postFix. cbn zeta. intros ->. reflexivity. Qed.

End Branches.

(** X7.  The remote model is consulted on the AI branch only: when the
    request does not ask for AI, or no API key is configured, the reply
    of each of the five POST endpoints is the same whatever the remote
    model and the runtime's [trim] would do. *)
Theorem remote_is_consulted_on_the_ai_branch_only
    (trim trim' : string -> string)
    (remote remote' : string -> string -> string -> Outcome string)
    (geminiEnv tableEnv : option string)
    (convertCode : JsVal -> JsVal -> JsVal -> Outcome EngineResult)
    (analyzeSyntax : JsVal -> JsVal -> Outcome SyntaxAnalysis)
    (fixSyntaxErrors : JsVal -> JsVal -> Outcome FixResult)
    (generateQualityMetrics : JsVal -> JsVal -> Outcome QualityMetrics)
    (sb : Supabase) (body : Body)
    (Hrule : aiBranch geminiEnv body = false) :
  postConvert trim remote geminiEnv tableEnv convertCode analyzeSyntax
    generateQualityMetrics sb body
  = postConvert trim' remote' geminiEnv tableEnv convertCode analyzeSyntax
      generateQualityMetrics sb body
  /\ postFix trim remote geminiEnv tableEnv analyzeSyntax fixSyntaxErrors
       generateQualityMetrics sb body
     = postFix trim' remote' geminiEnv tableEnv analyzeSyntax fixSyntaxErrors
         generateQualityMetrics sb body
  /\ postAnalyze trim remote geminiEnv analyzeSyntax generateQualityMetrics body
     = postAnalyze trim' remote' geminiEnv analyzeSyntax generateQualityMetrics body
  /\ postExplain trim remote geminiEnv body = postExplain trim' remote' geminiEnv body
  /\ postSuggest trim remote geminiEnv body = postSuggest trim' remote' geminiEnv body.
Proof.
  split; [now apply convert_rule_branch|].
  split; [now apply fix_rule_branch|].
  now apply others_rule_branch.
Qed.

(** A request that asks for AI of a server without a key. *)
Lemma remote_is_consulted_on_the_ai_branch_only_witness :
  postExplain (fun s => s) remotePlain None aiRequest
  = postExplain (fun s => s) Sample.remoteDown None aiRequest
  /\ postExplain (fun s => s) remotePlain (Some "k") aiRequest
     <> postExplain (fun s => s) Sample.remoteDown (Some "k") aiRequest.
Proof.
  split; [|discriminate].
  apply (remote_is_consulted_on_the_ai_branch_only (fun s => s) (fun s => s)
           remotePlain Sample.remoteDown None None Sample.convertCode
           Sample.analyzeSyntax Sample.fixSyntaxErrors Sample.generateQualityMetrics
           Sample.storing aiRequest).
  reflexivity.
Defined.

(** *** The AI branch *)

Section Ai.
Variable trim : string -> string.
Variable remote : string -> string -> string -> Outcome string.
Variable tableEnv : option string.
Variable convertCode : JsVal -> JsVal -> JsVal -> Outcome EngineResult.
Variable analyzeSyntax : JsVal -> JsVal -> Outcome SyntaxAnalysis.
Variable fixSyntaxErrors : JsVal -> JsVal -> Outcome FixResult.
Variable generateQualityMetrics : JsVal -> JsVal -> Outcome QualityMetrics.
Variable key : string.
Hypothesis Hkey : key <> "".
Variable body : Body.
Hypothesis Huse : truthy (withDefault (JBool false) (useAI body)) = true.

(** [/convert] on its AI branch: a field without a string conversion
    ends the request with the [TypeError]; otherwise the answer of the
    model decides between a 500 and the rest of the handler, and nothing
    else of it is used. *)
Lemma convert_on_ai (sb : Supabase) :
  convertMissingFields body = false ->
  postConvert trim remote (Some key) tableEnv convertCode analyzeSyntax
    generateQualityMetrics sb body
  = if convertPrintable body
    then
      match remote key Endpoints.modelName
              (Gemini.convertPrompt (toStr (inputCode body)) (toStr (sourceLang body))
                                    (toStr (targetLang body))) with
      | Threw e => mkResponse 500 (ErrorPayload (JStr (message e)))
      | Returned _ =>
          Routes.guarded
            (bind (analyzeSyntax JUndefined (targetLang body)) (fun sa =>
             bind (generateQualityMetrics JUndefined (targetLang body)) (fun qm =>
             bind (metricLines qm) (fun metrics =>
             bind (mapM warn (warnings sa)) (fun warned =>
             bind (mapM hint (suggestions sa)) (fun hinted =>
             let combined :=
               [ "✅ AI-powered conversion from " ++ toStr (sourceLang body) ++ " to "
                   ++ toStr (targetLang body);
                 "✅ Code analyzed and transformed using Gemini 1.5 Flash";
                 "✅ Functionality preserved during conversion" ]
               +++ metrics +++ warned +++ hinted in
             bind (saveHistory tableEnv sb
                     (mkEntry (sourceLang body) (targetLang body) (inputCode body)
                              JUndefined combined
                              (withDefault (JBool false) (useAI body)))) (fun saved =>
             Returned (mkResponse 200
               (ResultPayload (mkResultBody JUndefined combined (savedId saved)
                                 (withDefault (JBool false) (useAI body)) qm))))))))))
      end
    else mkResponse 500 (ErrorPayload (JStr (message typeError))).
Proof.
  unfold convertMissingFields, postConvert, convertPrintable. cbn zeta. intros ->.
  rewrite Huse, service_of_key by exact Hkey.
  cbn [Gemini.isConfigured Gemini.genAI Gemini.model andb].
  unfold Methods.convertCodeWithAI, interpolate, Gemini.requireClient.
  cbn [Gemini.genAI Gemini.model bind].
  destruct (printable (sourceLang body)); cbn [bind andb Gemini.mapOutcome Routes.guarded];
    [|reflexivity].
  destruct (printable (targetLang body)); cbn [bind andb Gemini.mapOutcome Routes.guarded];
    [|reflexivity].
  destruct (printable (inputCode body)); cbn [bind andb Gemini.mapOutcome Routes.guarded];
    [|reflexivity].
  unfold Gemini.convertCodeWithAI, Gemini.requireClient, Gemini.generateContent.
  cbn [Gemini.genAI Gemini.model bind Gemini.owner Gemini.apiKey Gemini.modelName].
  destruct (remote key Endpoints.modelName _) as [t|e]; reflexivity.
Qed.

(** [/fix] on its AI branch. *)
Lemma fix_on_ai (sb : Supabase) :
  missingFields body = false ->
  postFix trim remote (Some key) tableEnv analyzeSyntax fixSyntaxErrors
    generateQualityMetrics sb body
  = if requestPrintable body
    then
      match remote key Endpoints.modelName
              (Gemini.fixPrompt (toStr (inputCode body)) (toStr (language body))) with
      | Threw e => mkResponse 500 (ErrorPayload (JStr (message e)))
      | Returned t =>
          let clean := JStr (Gemini.cleanFences trim (trim t)) in
          Routes.guarded
            (bind (generateQualityMetrics clean (language body)) (fun qm =>
             bind (metricLines qm) (fun metrics =>
             let combined :=
               [ "✅ AI-powered code analysis and fixing";
                 "✅ Syntax errors identified and corrected";
                 "✅ Code quality improved using Gemini 1.5 Flash";
                 "✅ Best practices applied" ]
               +++ metrics in
             bind (saveHistory tableEnv sb
                     (mkEntry (language body) JNull (inputCode body) clean combined
                              (withDefault (JBool false) (useAI body)))) (fun saved =>
             Returned (mkResponse 200
               (ResultPayload (mkResultBody clean combined (savedId saved)
                                 (withDefault (JBool false) (useAI body)) qm)))))))
      end
    else mkResponse 500 (ErrorPayload (JStr (message typeError))).
Proof.
  unfold missingFields, postFix, requestPrintable. cbn zeta. intros ->.
  rewrite Huse, service_of_key by exact Hkey.
  cbn [Gemini.isConfigured Gemini.genAI Gemini.model andb].
  unfold Methods.fixCodeWithAI, interpolate, Gemini.requireClient.
  cbn [Gemini.genAI Gemini.model bind].
  destruct (printable (language body)); cbn [bind andb Gemini.mapOutcome Routes.guarded];
    [|reflexivity].
  destruct (printable (inputCode body)); cbn [bind andb Gemini.mapOutcome Routes.guarded];
    [|reflexivity].
  unfold Gemini.fixCodeWithAI, Gemini.requireClient, Gemini.generateContent.
  cbn [Gemini.genAI Gemini.model bind Gemini.owner Gemini.apiKey Gemini.modelName].
  destruct (remote key Endpoints.modelName _) as [t|e]; reflexivity.
Qed.

(** The text methods on their AI branch, on strings: the result holds
    the trimmed answer, or the empty text when the model fails. *)
Lemma text_on_ai (prompt : string) :
  Gemini.textMethod trim remote (geminiService (Some key)) prompt
  = Returned (match remote key Endpoints.modelName prompt with
              | Returned t => Gemini.mkTextResult (trim t) true None
              | Threw e => Gemini.mkTextResult "" false (Some (message e))
              end).
Proof.
  rewrite service_of_key by exact Hkey.
  unfold Gemini.textMethod, Gemini.requireClient, Gemini.generateContent.
  cbn [Gemini.genAI Gemini.model bind Gemini.owner Gemini.apiKey Gemini.modelName].
  destruct (remote key Endpoints.modelName prompt); reflexivity.
Qed.

(** The same on the values of a request: before anything else the
    prompt converts them. *)
Lemma texts_on_ai :
  let svc := geminiService (Some key) in
  let result p :=
    if requestPrintable body
    then Returned (match remote key Endpoints.modelName
                           (p (toStr (inputCode body)) (toStr (language body))) with
                   | Returned t => Gemini.mkTextResult (trim t) true None
                   | Threw e => Gemini.mkTextResult "" false (Some (message e))
                   end)
    else Threw typeError in
  Methods.analyzeCodeQuality trim remote svc (inputCode body) (language body)
  = result Gemini.qualityPrompt
  /\ Methods.generateCodeExplanation trim remote svc (inputCode body) (language body)
     = result Gemini.explainPrompt
  /\ Methods.suggestImprovements trim remote svc (inputCode body) (language body)
     = result Gemini.suggestPrompt.
Proof.
  cbn zeta.
  unfold Methods.analyzeCodeQuality, Methods.generateCodeExplanation,
    Methods.suggestImprovements, Gemini.analyzeCodeQuality,
    Gemini.generateCodeExplanation, Gemini.suggestImprovements, requestPrintable,
    interpolate.
  destruct (printable (language body)), (printable (inputCode body));
    cbn [bind andb]; rewrite ?text_on_ai; rewrite service_of_key by exact Hkey;
    unfold Gemini.requireClient; cbn [Gemini.genAI Gemini.model bind];
    repeat split.
Qed.

End Ai.

(** X8.  On its AI branch [/convert] does not return what the model
    answered: the result carries [outputCode] undefined, and two remote
    models that both answer, with whatever code, get the same response.
    The analyzer and the metrics run on [undefined]. *)
Theorem ai_conversion_is_not_returned
    (trim trim' : string -> string)
    (remote remote' : string -> string -> string -> Outcome string)
    (tableEnv : option string)
    (convertCode : JsVal -> JsVal -> JsVal -> Outcome EngineResult)
    (analyzeSyntax : JsVal -> JsVal -> Outcome SyntaxAnalysis)
    (generateQualityMetrics : JsVal -> JsVal -> Outcome QualityMetrics)
    (key : string) (sb : Supabase) (body : Body) (t t' : string)
    (Hkey : key <> "")
    (Huse : truthy (withDefault (JBool false) (useAI body)) = true)
    (Hfields : convertMissingFields body = false)
    (Ht : remote key Endpoints.modelName
            (Gemini.convertPrompt (toStr (inputCode body)) (toStr (sourceLang body))
                                  (toStr (targetLang body))) = Returned t)
    (Ht' : remote' key Endpoints.modelName
             (Gemini.convertPrompt (toStr (inputCode body)) (toStr (sourceLang body))
                                   (toStr (targetLang body))) = Returned t') :
  let r := postConvert trim remote (Some key) tableEnv convertCode analyzeSyntax
             generateQualityMetrics sb body in
  r = postConvert trim' remote' (Some key) tableEnv convertCode analyzeSyntax
        generateQualityMetrics sb body
  /\ (forall b, payload r = ResultPayload b -> b_outputCode b = JUndefined).
Proof.
  cbn zeta. rewrite !convert_on_ai by assumption. rewrite Ht, Ht'.
  split; [reflexivity|].
  destruct (convertPrintable body); cbn [payload]; [|discriminate].
  destruct (analyzeSyntax _ _) as [sa|e]; cbn [bind Routes.guarded payload];
    [|discriminate].
  destruct (generateQualityMetrics _ _) as [qm|e]; cbn [bind Routes.guarded payload];
    [|discriminate].
  destruct (metricLines qm) as [metrics|e]; cbn [bind Routes.guarded payload];
    [|discriminate].
  destruct (mapM warn _) as [warned|e]; cbn [bind Routes.guarded payload];
    [|discriminate].
  destruct (mapM hint _) as [hinted|e]; cbn [bind Routes.guarded payload];
    [|discriminate].
  match goal with
  | |- context [saveHistory tableEnv sb ?e] =>
      destruct (RoutesFacts.saveHistory_returns tableEnv sb e) as [s1 ->]
  end.
  cbn. intros b H. injection H as <-. reflexivity.
Qed.

Lemma ai_conversion_is_not_returned_witness :
  let r := postConvert (fun s => s) remoteFenced (Some "k") None Sample.convertCode
             Sample.analyzeSyntax Sample.generateQualityMetrics Sample.storing
             aiRequest in
  Routes.status r = 200
  /\ r = postConvert (fun s => s) remotePlain (Some "k") None Sample.convertCode
          Sample.analyzeSyntax Sample.generateQualityMetrics Sample.storing aiRequest
  /\ (forall b, payload r = ResultPayload b -> b_outputCode b = JUndefined).
Proof.
  split; [reflexivity|].
  apply (ai_conversion_is_not_returned (fun s => s) (fun s => s) remoteFenced
           remotePlain None Sample.convertCode Sample.analyzeSyntax
           Sample.generateQualityMetrics "k" Sample.storing aiRequest
           ("```go" ++ nl ++ "return" ++ nl ++ "```") "panic()");
    try reflexivity.
  discriminate.
Defined.

(** X9.  On its AI branch [/fix] returns the answer of the model,
    trimmed and stripped of its fences, as [outputCode], and does not
    run the rule-based analyzer or fixer. *)
Theorem ai_fix_returns_the_cleaned_answer
    (trim : string -> string) (remote : string -> string -> string -> Outcome string)
    (tableEnv : option string)
    (analyzeSyntax analyzeSyntax' : JsVal -> JsVal -> Outcome SyntaxAnalysis)
    (fixSyntaxErrors fixSyntaxErrors' : JsVal -> JsVal -> Outcome FixResult)
    (generateQualityMetrics : JsVal -> JsVal -> Outcome QualityMetrics)
    (key : string) (sb : Supabase) (body : Body) (t : string)
    (Hkey : key <> "")
    (Huse : truthy (withDefault (JBool false) (useAI body)) = true)
    (Hfields : missingFields body = false)
    (Ht : remote key Endpoints.modelName
            (Gemini.fixPrompt (toStr (inputCode body)) (toStr (language body)))
          = Returned t) :
  let r := postFix trim remote (Some key) tableEnv analyzeSyntax fixSyntaxErrors
             generateQualityMetrics sb body in
  r = postFix trim remote (Some key) tableEnv analyzeSyntax' fixSyntaxErrors'
        generateQualityMetrics sb body
  /\ (forall b, payload r = ResultPayload b ->
         b_outputCode b = JStr (Gemini.cleanFences trim (trim t))).
Proof.
  cbn zeta. rewrite !fix_on_ai by assumption. rewrite Ht. cbn zeta.
  split; [reflexivity|].
  destruct (requestPrintable body); cbn [payload]; [|discriminate].
  destruct (generateQualityMetrics _ _) as [qm|e]; cbn [bind Routes.guarded payload];
    [|discriminate].
  destruct (metricLines qm) as [metrics|e]; cbn [bind Routes.guarded payload];
    [|discriminate].
  match goal with
  | |- context [saveHistory tableEnv sb ?e] =>
      destruct (RoutesFacts.saveHistory_returns tableEnv sb e) as [s1 ->]
  end.
  cbn. intros b H. injection H as <-. reflexivity.
Qed.

Lemma ai_fix_returns_the_cleaned_answer_witness :
  let r := postFix (fun s => s) remoteFenced (Some "k") None Sample.analyzeSyntax
             Sample.fixSyntaxErrors Sample.generateQualityMetrics Sample.storing
             aiRequest in
  Routes.status r = 200
  /\ r = postFix (fun s => s) remoteFenced (Some "k") None strictAnalyzer
          Sample.fixSyntaxErrors Sample.generateQualityMetrics Sample.storing aiRequest
  /\ (forall b, payload r = ResultPayload b -> b_outputCode b = JStr ("return" ++ nl)).
Proof.
  split; [reflexivity|].
  apply (ai_fix_returns_the_cleaned_answer (fun s => s) remoteFenced None
           Sample.analyzeSyntax strictAnalyzer Sample.fixSyntaxErrors
           Sample.fixSyntaxErrors Sample.generateQualityMetrics "k" Sample.storing
           aiRequest ("```go" ++ nl ++ "return" ++ nl ++ "```"));
    try reflexivity.
  discriminate.
Defined.

(** X10.  On the AI branch, when the model call fails, [/convert] and
    [/fix] answer 500, whatever the engine and Supabase would do.  The
    message is that of the failure when the fields that the prompt
    interpolates have a string conversion; when one has none, the
    prompt is never built, the model is not called, and the message is
    that of the [TypeError]. *)
Theorem ai_failure_is_a_500
    (trim : string -> string) (remote : string -> string -> string -> Outcome string)
    (tableEnv : option string)
    (convertCode : JsVal -> JsVal -> JsVal -> Outcome EngineResult)
    (analyzeSyntax : JsVal -> JsVal -> Outcome SyntaxAnalysis)
    (fixSyntaxErrors : JsVal -> JsVal -> Outcome FixResult)
    (generateQualityMetrics : JsVal -> JsVal -> Outcome QualityMetrics)
    (key : string) (sb : Supabase) (body : Body) (e : JsError)
    (Hkey : key <> "")
    (Huse : truthy (withDefault (JBool false) (useAI body)) = true)
    (Hfields : convertMissingFields body = false)
    (Hdown : forall prompt, remote key Endpoints.modelName prompt = Threw e) :
  postConvert trim remote (Some key) tableEnv convertCode analyzeSyntax
    generateQualityMetrics sb body
  = mkResponse 500
      (ErrorPayload
         (JStr (if convertPrintable body then message e else message typeError)))
  /\ (missingFields body = false ->
      postFix trim remote (Some key) tableEnv analyzeSyntax fixSyntaxErrors
        generateQualityMetrics sb body
      = mkResponse 500
          (ErrorPayload
             (JStr (if requestPrintable body then message e else message typeError)))).
Proof.
  split.
  - rewrite convert_on_ai by assumption. rewrite Hdown.
    now destruct (convertPrintable body).
  - intros Hf. rewrite fix_on_ai by assumption. rewrite Hdown.
    now destruct (requestPrintable body).
Qed.

(** A model that is down, asked about code and about an object that has
    no string conversion. *)
Lemma ai_failure_is_a_500_witness :
  postConvert (fun s => s) Sample.remoteDown (Some "k") None Sample.convertCode
    Sample.analyzeSyntax Sample.generateQualityMetrics Sample.storing aiRequest
  = mkResponse 500 (ErrorPayload (JStr "fetch failed"))
  /\ postConvert (fun s => s) Sample.remoteDown (Some "k") None Sample.convertCode
       Sample.analyzeSyntax Sample.generateQualityMetrics Sample.storing opaqueRequest
     = mkResponse 500 (ErrorPayload (JStr "Cannot convert object to primitive value")).
Proof.
  split.
  - apply (ai_failure_is_a_500 (fun s => s) Sample.remoteDown None Sample.convertCode
             Sample.analyzeSyntax Sample.fixSyntaxErrors Sample.generateQualityMetrics
             "k" Sample.storing aiRequest (mkError "fetch failed"));
      try reflexivity.
    discriminate.
  - apply (ai_failure_is_a_500 (fun s => s) Sample.remoteDown None Sample.convertCode
             Sample.analyzeSyntax Sample.fixSyntaxErrors Sample.generateQualityMetrics
             "k" Sample.storing opaqueRequest (mkError "fetch failed"));
      try reflexivity.
    discriminate.
Defined.

(** *** What becomes of the syntax errors *)

(** X11.  [/convert] never reports the syntax errors that the analyzer
    finds in the converted code: two analyzers that agree on warnings
    and suggestions, and on failing, get the same response whatever
    errors they list. *)
Theorem convert_does_not_list_syntax_errors
    (trim : string -> string) (remote : string -> string -> string -> Outcome string)
    (geminiEnv tableEnv : option string)
    (convertCode : JsVal -> JsVal -> JsVal -> Outcome EngineResult)
    (analyzeSyntax analyzeSyntax' : JsVal -> JsVal -> Outcome SyntaxAnalysis)
    (generateQualityMetrics : JsVal -> JsVal -> Outcome QualityMetrics)
    (sb : Supabase) (body : Body)
    (Hsame : forall c l, sameAdvice (analyzeSyntax c l) (analyzeSyntax' c l)) :
  postConvert trim remote geminiEnv tableEnv convertCode analyzeSyntax
    generateQualityMetrics sb body
  = postConvert trim remote geminiEnv tableEnv convertCode analyzeSyntax'
      generateQualityMetrics sb body.
Proof.
  unfold postConvert.
  destruct (negb _ || negb _ || negb _); [reflexivity|].
  match goal with
  | |- context [bind ?m _] => destruct m as [result|err]
  end; cbn [bind Routes.guarded]; [|reflexivity].
  destruct (success result); cbn [negb]; [|reflexivity].
  specialize (Hsame (outputCode result) (targetLang body)). unfold sameAdvice in Hsame.
  destruct (analyzeSyntax _ _) as [sa|e], (analyzeSyntax' _ _) as [sa'|e'];
    try contradiction; cbn [bind Routes.guarded].
  - destruct Hsame as [-> ->]. reflexivity.
  - now subst.
Qed.

Lemma convert_does_not_list_syntax_errors_witness :
  postConvert (fun s => s) Sample.remoteDown None None Sample.convertCode
    Sample.analyzeSyntax Sample.generateQualityMetrics Sample.storing Sample.request
  = postConvert (fun s => s) Sample.remoteDown None None Sample.convertCode
      strictAnalyzer Sample.generateQualityMetrics Sample.storing Sample.request.
Proof.
  apply (convert_does_not_list_syntax_errors (fun s => s) Sample.remoteDown None None
           Sample.convertCode Sample.analyzeSyntax strictAnalyzer
           Sample.generateQualityMetrics Sample.storing Sample.request).
  intros c l. split; reflexivity.
Defined.



(** *** What is saved *)

(** X13.  [saveHistory] returns a row exactly when Supabase is
    configured and the insert resolves without an error and with at
    least one row, and then it is the first row; an insert that resolves
    without an error but with no row gives [undefined], not [null]. *)
Theorem saveHistory_returns_the_first_row
    (tableEnv : option string) (sb : Supabase) (e : HistoryEntry) (r : Row) :
  (saveHistory tableEnv sb e = Returned (SavedRow r) <->
   isSupabaseConfigured sb = true
   /\ exists rows, insert sb (TABLE tableEnv) (rowOf e) = Resolved (Some (r :: rows)) None)
  /\ (saveHistory tableEnv sb e = Returned SavedUndefined <->
      isSupabaseConfigured sb = true
      /\ (insert sb (TABLE tableEnv) (rowOf e) = Resolved None None
          \/ insert sb (TABLE tableEnv) (rowOf e) = Resolved (Some []) None))
  /\ (saveHistory tableEnv sb e = Returned SavedNull <->
      persistenceFails tableEnv sb (rowOf e) = true).
Proof.
  unfold saveHistory, persistenceFails.
  destruct (isSupabaseConfigured sb); cbn [negb orb].
  - destruct (insert sb _ _) as [[[|r' rows]|] [err|]|err]; cbn [tryCatch];
      repeat split; intros;
      repeat match goal with
             | H : _ /\ _ |- _ => destruct H
             | H : exists _, _ |- _ => destruct H
             | H : _ \/ _ |- _ => destruct H
             end;
      try discriminate; try congruence; eauto.
    injection H as ->. now eexists.
  - repeat split; intros;
      repeat match goal with
             | H : _ /\ _ |- _ => destruct H
             end;
      try discriminate; try congruence.
Qed.

(** X14.  The row that [saveHistory] inserts is normalised: its
    [targetLang] is never undefined ([null] stands for it), its [useAI]
    is [false] unless it is truthy, and saving a normalised row inserts
    it unchanged. *)
Theorem history_row_is_normalised
    (tableEnv : option string) (sb : Supabase) (e : HistoryEntry) :
  h_targetLang (rowOf e) <> JUndefined
  /\ (h_useAI (rowOf e) = JBool false \/ truthy (h_useAI (rowOf e)) = true)
  /\ rowOf (rowOf e) = rowOf e
  /\ saveHistory tableEnv sb (rowOf e) = saveHistory tableEnv sb e.
Proof.
  assert (Hidem : rowOf (rowOf e) = rowOf e).
  { unfold rowOf.
    cbn [h_sourceLang h_targetLang h_inputCode h_outputCode h_analysisSummary h_useAI].
    f_equal.
    - destruct (h_targetLang e); reflexivity.
    - unfold orFalse.
      destruct (truthy (withDefault (JBool false) (h_useAI e))) eqn:E; [|reflexivity].
      assert (E' : withDefault (JBool false) (withDefault (JBool false) (h_useAI e))
                   = withDefault (JBool false) (h_useAI e))
        by (destruct (h_useAI e); reflexivity).
      rewrite E'. now rewrite E. }
  repeat split.
  - unfold rowOf, withDefault. cbn. destruct (h_targetLang e); discriminate.
  - unfold rowOf, orFalse. cbn [h_useAI].
    destruct (truthy (withDefault (JBool false) (h_useAI e))) eqn:E; [now right|now left].
  - exact Hidem.
  - unfold saveHistory. now rewrite Hidem.
Qed.



End RoutesMore.

(* ===================================================================== *)
(** ** Properties of the other endpoints *)
(* ===================================================================== *)

Module EndpointsFacts.
Import Js JsNotations Routes Endpoints.

Lemma contains_self (s : string) : Engine.contains s s = true.
Proof.
  pose proof (GeminiMore.contains_here s "") as H.
  now rewrite EngineFacts.append_empty in H.
Qed.

Lemma contains_concat (sub sep x : string) (xs : list string) :
  In x xs -> Engine.contains sub x = true ->
  Engine.contains sub (String.concat sep xs) = true.
Proof.
  intros Hin Hx. induction xs as [|y ys IH]; [contradiction|].
  cbn [String.concat]. destruct ys as [|z zs].
  - destruct Hin as [->|[]]. exact Hx.
  - destruct Hin as [->|Hin].
    + now apply GeminiMore.contains_append_l.
    + apply GeminiMore.contains_append_r, GeminiMore.contains_append_r, IH, Hin.
Qed.

(** A map of template literals over values goes through exactly when
    every value has a string conversion. *)
Lemma mapM_interpolate (pre : string) (vs : list JsVal) :
  mapM (fun v => t <- interpolate v ;; Returned (pre ++ t)) vs
  = if forallb printable vs
    then Returned (map (fun v => pre ++ toStr v) vs)
    else Threw typeError.
Proof.
  induction vs as [|v vs IH]; cbn [mapM forallb map]; [reflexivity|].
  unfold interpolate at 1. destruct (printable v); cbn [bind andb]; [|reflexivity].
  rewrite IH. now destruct (forallb printable vs).
Qed.

Lemma reportLines_printable (q : QualityMetrics) (a : SyntaxAnalysis) :
  reportLines q a
  = if reportPrintable q a
    then Returned
           ([ "📊 Code Analysis Report";
              "📏 Lines of code: " ++ toStr (linesOfCode q);
              "🔧 Functions: " ++ toStr (functions q);
              "🏗️ Classes: " ++ toStr (classes q);
              "📈 Complexity: " ++ toStr (complexity q);
              "📖 Readability: " ++ toStr (readability q) ]
            +++ map (fun e => "❌ Error: " ++ toStr e) (errors a)
            +++ map (fun w => "⚠️ Warning: " ++ toStr w) (warnings a)
            +++ map (fun s => "💡 Suggestion: " ++ toStr s) (suggestions a))
    else Threw typeError.
Proof.
  unfold reportLines, reportPrintable. rewrite !mapM_interpolate.
  unfold interpolate. cbn [forallb].
  destruct (printable (linesOfCode q)); cbn [bind andb]; [|reflexivity].
  destruct (printable (functions q)); cbn [bind andb]; [|reflexivity].
  destruct (printable (classes q)); cbn [bind andb]; [|reflexivity].
  destruct (printable (complexity q)); cbn [bind andb]; [|reflexivity].
  destruct (printable (readability q)); cbn [bind andb]; [|reflexivity].
  destruct (forallb printable (errors a)); cbn [bind andb]; [|reflexivity].
  destruct (forallb printable (warnings a)); cbn [bind andb]; [|reflexivity].
  destruct (forallb printable (suggestions a)); reflexivity.
Qed.

(** A configured service is one made from a non-empty key. *)
Lemma aiBranch_key (geminiEnv : option string) (body : Body) :
  aiBranch geminiEnv body = true ->
  exists key, geminiEnv = Some key /\ key <> "".
Proof.
  unfold aiBranch, geminiService. intros H. apply andb_prop in H as [_ H].
  rewrite GeminiFacts.isConfigured_new in H.
  destruct geminiEnv as [key|]; [|discriminate].
  exists key. split; [reflexivity|].
  intros ->. discriminate.
Qed.

(** X15.  On the AI branch a failure of the model call is swallowed by
    [/analyze], [/explain] and [/suggest]: each answers 200 with an
    empty text, where [/convert] and [/fix] answer 500.  That is so
    when the two fields that the prompt interpolates have a string
    conversion; when one has none, the prompt is never built and each
    answers 500 with the message of the [TypeError]. *)
Theorem ai_failure_is_swallowed
    (trim : string -> string) (remote : string -> string -> string -> Outcome string)
    (analyzeSyntax : JsVal -> JsVal -> Outcome SyntaxAnalysis)
    (generateQualityMetrics : JsVal -> JsVal -> Outcome QualityMetrics)
    (key : string) (body : Body) (e : JsError)
    (Hkey : key <> "")
    (Huse : truthy (withDefault (JBool false) (useAI body)) = true)
    (Hfields : missingFields body = false)
    (Hdown : forall prompt, remote key Endpoints.modelName prompt = Threw e) :
  let unprintable := ErrorReply 500 (JStr (message typeError)) in
  postAnalyze trim remote (Some key) analyzeSyntax generateQualityMetrics body
  = (if requestPrintable body then AnalysisReply (JStr "") else unprintable)
  /\ postExplain trim remote (Some key) body
     = (if requestPrintable body then ExplanationReply (JStr "") else unprintable)
  /\ postSuggest trim remote (Some key) body
     = (if requestPrintable body then SuggestionsReply (JStr "") else unprintable).
Proof.
  cbn zeta. unfold postAnalyze, postExplain, postSuggest.
  rewrite Hfields, RoutesMore.aiBranch_of_key, Huse by exact Hkey.
  destruct (RoutesMore.texts_on_ai trim remote key Hkey body) as (-> & -> & ->).
  rewrite !Hdown.
  destruct (requestPrintable body); repeat split.
Qed.

(** A model that is down, asked to explain code and to explain an object
    that has no string conversion. *)
Lemma ai_failure_is_swallowed_witness :
  postExplain (fun s => s) Sample.remoteDown (Some "k") aiRequest
  = ExplanationReply (JStr "")
  /\ postExplain (fun s => s) Sample.remoteDown (Some "k") opaqueRequest
     = ErrorReply 500 (JStr "Cannot convert object to primitive value").
Proof.
  split.
  - apply (ai_failure_is_swallowed (fun s => s) Sample.remoteDown Sample.analyzeSyntax
             Sample.generateQualityMetrics "k" aiRequest (mkError "fetch failed"));
      try reflexivity.
    discriminate.
  - apply (ai_failure_is_swallowed (fun s => s) Sample.remoteDown Sample.analyzeSyntax
             Sample.generateQualityMetrics "k" opaqueRequest (mkError "fetch failed"));
      try reflexivity.
    discriminate.
Defined.

(** X16.  [/explain] and [/suggest] answer 500 in one case only: on the
    AI branch, when a field that the prompt interpolates has no string
    conversion, with the message of the [TypeError].  A request with a
    missing field gets the 400 of the validation, and every other
    request gets a 200 with a text, whatever the remote model does. *)
Theorem explain_and_suggest_fail_on_opaque_fields_only
    (trim : string -> string) (remote : string -> string -> string -> Outcome string)
    (geminiEnv : option string) (body : Body) :
  let explain := postExplain trim remote geminiEnv body in
  let suggest := postSuggest trim remote geminiEnv body in
  let opaque := aiBranch geminiEnv body && negb (requestPrintable body) in
  (if missingFields body
   then explain = required /\ suggest = required
   else if opaque
        then explain = ErrorReply 500 (JStr (message typeError))
             /\ suggest = ErrorReply 500 (JStr (message typeError))
        else (exists t, explain = ExplanationReply (JStr t))
             /\ (exists t, suggest = SuggestionsReply (JStr t)))
  /\ (replyStatus explain = 500 <-> missingFields body = false /\ opaque = true)
  /\ (replyStatus suggest = 500 <-> missingFields body = false /\ opaque = true).
Proof.
  cbn zeta.
  assert (H : if missingFields body
              then postExplain trim remote geminiEnv body = required
                   /\ postSuggest trim remote geminiEnv body = required
              else if aiBranch geminiEnv body && negb (requestPrintable body)
                   then postExplain trim remote geminiEnv body
                        = ErrorReply 500 (JStr (message typeError))
                        /\ postSuggest trim remote geminiEnv body
                           = ErrorReply 500 (JStr (message typeError))
                   else (exists t, postExplain trim remote geminiEnv body
                                   = ExplanationReply (JStr t))
                        /\ (exists t, postSuggest trim remote geminiEnv body
                                      = SuggestionsReply (JStr t))).
  { unfold postExplain, postSuggest.
    destruct (missingFields body); [now split|].
    destruct (aiBranch geminiEnv body) eqn:E; cbn [andb]; [|split; now eexists].
    destruct (aiBranch_key geminiEnv body E) as (key & -> & Hkey).
    destruct (RoutesMore.texts_on_ai trim remote key Hkey body) as (_ & -> & ->).
    destruct (requestPrintable body); cbn [negb bind guarded]; split;
      try reflexivity; now eexists. }
  split; [exact H|].
  destruct (missingFields body).
  - destruct H as [-> ->]. cbn. repeat split; try discriminate;
      intros [H _]; discriminate.
  - destruct (aiBranch geminiEnv body && negb (requestPrintable body)).
    + destruct H as [-> ->]. cbn. repeat split.
    + destruct H as [[t ->] [t' ->]]. cbn. repeat split; try discriminate;
        intros [_ H]; discriminate.
Qed.

(** X17.  The rule-based report of [/analyze] lists every error that the
    analyzer found, each on a line of its own kind, next to the metrics.
    The report is made when every value that it interpolates has a
    string conversion; otherwise the answer is a 500 with the message of
    the [TypeError]. *)
Theorem analyze_lists_every_error
    (trim : string -> string) (remote : string -> string -> string -> Outcome string)
    (geminiEnv : option string)
    (analyzeSyntax : JsVal -> JsVal -> Outcome SyntaxAnalysis)
    (generateQualityMetrics : JsVal -> JsVal -> Outcome QualityMetrics)
    (body : Body) (a : SyntaxAnalysis) (q : QualityMetrics) (e : JsVal)
    (Hfields : missingFields body = false)
    (Hrule : aiBranch geminiEnv body = false)
    (Ha : analyzeSyntax (inputCode body) (language body) = Returned a)
    (Hq : generateQualityMetrics (inputCode body) (language body) = Returned q)
    (He : In e (errors a)) :
  let reply :=
    postAnalyze trim remote geminiEnv analyzeSyntax generateQualityMetrics body in
  if reportPrintable q a
  then exists report,
         reply = AnalysisReply (JStr report)
         /\ Engine.contains ("❌ Error: " ++ toStr e) report = true
         /\ Engine.contains ("📖 Readability: " ++ toStr (readability q)) report = true
  else reply = ErrorReply 500 (JStr (message typeError)).
Proof.
  cbn zeta. unfold postAnalyze. rewrite Hfields, Hrule, Ha. cbn [bind]. rewrite Hq.
  cbn [bind]. rewrite reportLines_printable.
  destruct (reportPrintable q a); cbn [bind guarded]; [|reflexivity].
  eexists. split; [reflexivity|]. split.
  - apply contains_concat with (x := "❌ Error: " ++ toStr e).
    + apply in_or_app. right. apply in_or_app. left.
      apply in_map_iff. now exists e.
    + apply contains_self.
  - apply contains_concat with (x := "📖 Readability: " ++ toStr (readability q)).
    + apply in_or_app. left. cbn. auto 10.
    + apply contains_self.
Qed.

Lemma analyze_lists_every_error_witness :
  exists report,
    postAnalyze (fun s => s) Sample.remoteDown None strictAnalyzer
      Sample.generateQualityMetrics Sample.request
    = AnalysisReply (JStr report)
    /\ Engine.contains ("❌ Error: " ++ "Unclosed (") report = true
    /\ Engine.contains ("📖 Readability: " ++ "Good") report = true.
Proof.
  apply (analyze_lists_every_error (fun s => s) Sample.remoteDown None strictAnalyzer
           Sample.generateQualityMetrics Sample.request
           (mkSyntax [JStr "Unclosed ("] [JStr "no block"] [])
           (mkMetrics (JNum 1) (JNum 0) (JNum 0) (JNum 1) (JStr "Good"))
           (JStr "Unclosed ("));
    try reflexivity.
  left. reflexivity.
Defined.

(** X18.  [/history] answers an unconfigured Supabase with an empty list
    and a notice, without a query; with Supabase configured, a failed
    query is a 500 whose text is fixed and does not carry the message of
    the failure, and a query that goes through gives its rows, or an
    empty list for [null]. *)
Theorem history_hides_the_failure
    (tableEnv : option string) (sb : Supabase)
    (select select' : string -> nat -> SelectOutcome) :
  (isSupabaseConfigured sb = false ->
   getHistory tableEnv sb select = HistoryReply [] (Some "Supabase not configured")
   /\ getHistory tableEnv sb select = getHistory tableEnv sb select')
  /\ match getHistory tableEnv sb select with
     | ErrorReply st err =>
         st = 500 /\ err = JStr "Failed to fetch history"
         /\ isSupabaseConfigured sb = true
         /\ (forall rows, select (TABLE tableEnv) 50 <> Selected rows None)
     | HistoryReply items note =>
         if isSupabaseConfigured sb
         then note = None
              /\ (select (TABLE tableEnv) 50 = Selected (Some items) None
                  \/ (items = [] /\ select (TABLE tableEnv) 50 = Selected None None))
         else items = [] /\ note = Some "Supabase not configured"
     | _ => False
     end.
Proof.
  unfold getHistory. destruct (isSupabaseConfigured sb); cbn [negb].
  - split; [discriminate|].
    destruct (select (TABLE tableEnv) 50) as [[rows|] [err|]|err];
      repeat split; try discriminate; auto.
  - split; [intros _; now split|now split].
Qed.

End EndpointsFacts.
